(** * axiestudio: the OpenAI-compatibility adapter and the sized log buffer

    A shallow embedding of

    - [backend-base/axiestudio/api/v1/openai_responses.py]
      ([has_chat_input], [has_chat_output], [run_flow_for_openai_responses],
      [create_openai_error], [openai_chat_completions] with its inner
      [generate_stream]);
    - [backend-base/axiestudio/logging/logger.py] ([SizedLogBuffer]).

    Python values are a small universe of JSON-like data, Python exceptions
    are values of an error monad, and everything the two modules import
    from elsewhere (flow lookup, flow execution, [uuid.uuid4], [time.time],
    [json.loads]) is a parameter: a variable of the section that uses it
    or a field of the record [collaborators]. *)

From Stdlib Require Import List String Ascii ZArith Lia Bool.
From Stdlib Require Import DecimalString.
Import ListNotations.
Open Scope string_scope.
Set Warnings "-register-all".

(** ** Python values *)

Module Py.

(** Strings are sequences of code points below 256; dictionaries keep their
    insertion order and are looked up by first match. *)
Inductive pyval : Type :=
| PyNone
| PyBool (b : bool)
| PyInt (z : Z)
| PyStr (s : string)
| PyList (xs : list pyval)
| PyDict (kvs : list (string * pyval)).

Definition dict := list (string * pyval).

(** What can be raised.  [HTTPException] is fastapi's; [PyException cls msg]
    is an instance of any other class deriving from [Exception], with
    [msg = str(e)]; [PyBaseException] stands for what [except Exception]
    does not catch (cancellation, generator exit, keyboard interrupt). *)
Inductive exception : Type :=
| HTTPException (status_code : Z) (detail : pyval)
| PyException (cls : string) (msg : string)
| PyBaseException (cls : string) (msg : string).

Definition is_Exception (e : exception) : bool :=
  match e with
  | PyBaseException _ _ => false
  | _ => true
  end.

Inductive result (A : Type) : Type :=
| Ok (a : A)
| Raise (e : exception).
Arguments Ok {A} a.
Arguments Raise {A} e.

Definition rbind {A B} (r : result A) (k : A -> result B) : result B :=
  match r with
  | Ok a => k a
  | Raise e => Raise e
  end.

Declare Scope py_scope.
Delimit Scope py_scope with py.
Notation "x <- r ;; k" := (rbind r (fun x => k))
  (at level 61, r at next level, right associativity) : py_scope.

Definition type_name (v : pyval) : string :=
  match v with
  | PyNone => "NoneType"
  | PyBool _ => "bool"
  | PyInt _ => "int"
  | PyStr _ => "str"
  | PyList _ => "list"
  | PyDict _ => "dict"
  end.

Definition TypeError (msg : string) := PyException "TypeError" msg.
Definition AttributeError (v : pyval) (attr : string) :=
  PyException "AttributeError"
    ("'" ++ type_name v ++ "' object has no attribute '" ++ attr ++ "'").
(** [str(KeyError(key))] is the [repr] of the key. *)
Definition KeyError (key_repr : string) := PyException "KeyError" key_repr.
Definition IndexError (msg : string) := PyException "IndexError" msg.
Definition ValueError (msg : string) := PyException "ValueError" msg.

(** [bool(v)] *)
Definition truthy (v : pyval) : bool :=
  match v with
  | PyNone => false
  | PyBool b => b
  | PyInt z => negb (z =? 0)%Z
  | PyStr s => negb (s =? "")
  | PyList xs => match xs with [] => false | _ => true end
  | PyDict kvs => match kvs with [] => false | _ => true end
  end.

Fixpoint lookup (k : string) (d : dict) : option pyval :=
  match d with
  | [] => None
  | (k', v) :: d' => if k =? k' then Some v else lookup k d'
  end.

Definition has_key (k : string) (d : dict) : bool :=
  match lookup k d with Some _ => true | None => false end.

(** [d.get(k, default)] on a dictionary *)
Definition dict_get (d : dict) (k : string) (default : pyval) : pyval :=
  match lookup k d with Some v => v | None => default end.

(** [v.get(k, default)]: only dictionaries have the method. *)
Definition get (v : pyval) (k : string) (default : pyval) : result pyval :=
  match v with
  | PyDict d => Ok (dict_get d k default)
  | _ => Raise (AttributeError v "get")
  end.

Definition is_PyStr (k : string) (v : pyval) : bool :=
  match v with PyStr s => s =? k | _ => false end.

Definition substring_of (k s : string) : bool :=
  match index 0 k s with Some _ => true | None => false end.

(** [k in v] for a string [k] *)
Definition contains (k : string) (v : pyval) : result bool :=
  match v with
  | PyDict d => Ok (has_key k d)
  | PyList xs => Ok (existsb (is_PyStr k) xs)
  | PyStr s => Ok (substring_of k s)
  | _ => Raise (TypeError ("argument of type '" ++ type_name v ++ "' is not iterable"))
  end.

(** [v[k]] for a string [k] *)
Definition getitem (v : pyval) (k : string) : result pyval :=
  match v with
  | PyDict d => match lookup k d with
                | Some x => Ok x
                | None => Raise (KeyError ("'" ++ k ++ "'"))
                end
  | PyList _ => Raise (TypeError "list indices must be integers or slices, not str")
  | PyStr _ => Raise (TypeError "string indices must be integers, not 'str'")
  | _ => Raise (TypeError ("'" ++ type_name v ++ "' object is not subscriptable"))
  end.

(** [v[0]]; the keys of a dictionary are strings, so [0] is never one. *)
Definition getitem0 (v : pyval) : result pyval :=
  match v with
  | PyList (x :: _) => Ok x
  | PyList [] => Raise (IndexError "list index out of range")
  | PyStr (String c _) => Ok (PyStr (String c ""))
  | PyStr EmptyString => Raise (IndexError "string index out of range")
  | PyDict _ => Raise (KeyError "0")
  | _ => Raise (TypeError ("'" ++ type_name v ++ "' object is not subscriptable"))
  end.

(** [len(v)] *)
Definition len (v : pyval) : result Z :=
  match v with
  | PyList xs => Ok (Z.of_nat (List.length xs))
  | PyStr s => Ok (Z.of_nat (String.length s))
  | PyDict d => Ok (Z.of_nat (List.length d))
  | _ => Raise (TypeError ("object of type '" ++ type_name v ++ "' has no len()"))
  end.

(** [str.isspace] on one code point below 256 *)
Definition isspace (c : ascii) : bool :=
  let n := nat_of_ascii c in
  (((9 <=? n) && (n <=? 13)) || ((28 <=? n) && (n <=? 32))
   || (n =? 133) || (n =? 160))%nat.

Definition flush (word : string) (words : list string) : list string :=
  match word with
  | EmptyString => words
  | _ => word :: words
  end.

(** [s.split()]: the maximal runs of non-whitespace, in order. *)
Fixpoint split_from (word : string) (s : string) : list string :=
  match s with
  | EmptyString => flush word []
  | String c s' =>
      if isspace c then flush word (split_from "" s')
      else split_from (word ++ String c "") s'
  end.

Definition str_split (s : string) : list string := split_from "" s.

(** [v.split()] on any value: only strings have the method. *)
Definition split (v : pyval) : result (list string) :=
  match v with
  | PyStr s => Ok (str_split s)
  | _ => Raise (AttributeError v "split")
  end.

(** The one-character strings a [for] loop over a string yields. *)
Fixpoint characters (s : string) : list pyval :=
  match s with
  | EmptyString => []
  | String c s' => PyStr (String c "") :: characters s'
  end.

(** What [for x in v] iterates over: the elements of a list, the keys of a
    dictionary, the characters of a string. *)
Definition iter (v : pyval) : result (list pyval) :=
  match v with
  | PyList xs => Ok xs
  | PyDict d => Ok (map (fun kv => PyStr (fst kv)) d)
  | PyStr s => Ok (characters s)
  | _ => Raise (TypeError ("'" ++ type_name v ++ "' object is not iterable"))
  end.

(** [x in [a, b]] for two string literals: equality with either. *)
Definition in_literals (x : pyval) (a b : string) : bool :=
  is_PyStr a x || is_PyStr b x.

End Py.

(** ** logging/logger.py: [SizedLogBuffer] *)

Module Logger.
Import Py.
#[local] Open Scope py_scope.
#[local] Open Scope Z_scope.

(** The deque is a list with its left end first.  The write lock and the
    reader semaphore only serialise the calls; one call runs at a time
    here.  A call that raises does so before it has changed the object, so
    a raised exception carries no state. *)
Record SizedLogBuffer : Type := mkSizedLogBuffer {
  buffer : list pyval;
  _max : Z
}.

(** [SizedLogBuffer()] *)
Definition __init__ : SizedLogBuffer := {| buffer := []; _max := 0 |}.

Definition set_max (value : Z) (self : SizedLogBuffer) : SizedLogBuffer :=
  {| buffer := buffer self; _max := value |}.

Definition decimal_value (c : ascii) : option Z :=
  let n := nat_of_ascii c in
  if ((48 <=? n) && (n <=? 57))%nat then Some (Z.of_nat (n - 48)) else None.

(** The code points below 256 that [str.isdigit] accepts: the ten decimal
    digits and the superscripts two, three and one. *)
Definition isdigit_char (c : ascii) : bool :=
  let n := nat_of_ascii c in
  (((48 <=? n) && (n <=? 57)) || (n =? 178) || (n =? 179) || (n =? 185))%nat.

Fixpoint all_chars (p : ascii -> bool) (s : string) : bool :=
  match s with
  | EmptyString => true
  | String c s' => p c && all_chars p s'
  end.

Definition isdigit (s : string) : bool :=
  negb (s =? "")%string && all_chars isdigit_char s.

Fixpoint int_from (acc : Z) (s : string) : option Z :=
  match s with
  | EmptyString => Some acc
  | String c s' =>
      match decimal_value c with
      | Some d => int_from (10 * acc + d) s'
      | None => None
      end
  end.

(** The number of decimal digits a string starts with. *)
Fixpoint leading_digits (s : string) : nat :=
  match s with
  | EmptyString => 0
  | String c s' =>
      match decimal_value c with
      | Some _ => S (leading_digits s')
      | None => 0
      end
  end.

(** The default of [sys.get_int_max_str_digits()]. *)
Definition int_max_str_digits : Z := 4300.

(** [int(s)] on a string that passed [isdigit] (so without sign, blank or
    underscore).  The digits the string starts with are counted first, and
    more of them than the limit is a ValueError of its own; then any other
    character makes the literal invalid (the message shows the [repr] of
    the string, here its text between quotes). *)
Definition int (s : string) : result Z :=
  if int_max_str_digits <? Z.of_nat (leading_digits s) then
    Raise (ValueError
             ("Exceeds the limit (4300 digits) for integer string conversion: value has "
              ++ NilZero.string_of_uint (Nat.to_uint (leading_digits s))
              ++ " digits; use sys.set_int_max_str_digits() to increase the limit"))
  else
    match int_from 0 s with
    | Some n => Ok n
    | None => Raise (ValueError ("invalid literal for int() with base 10: '" ++ s ++ "'"))
    end.

(** The [max] property.  [environ] is the value of
    AXIESTUDIO_LOG_RETRIEVER_BUFFER_SIZE, [None] when it is unset; reading
    the property stores what it found. *)
Definition max (environ : option string) (self : SizedLogBuffer)
  : result (Z * SizedLogBuffer) :=
  if _max self =? 0 then
    let env_buffer_size := match environ with Some s => s | None => "0"%string end in
    if isdigit env_buffer_size then
      n <- int env_buffer_size ;;
      Ok (n, set_max n self)
    else Ok (_max self, self)
  else Ok (_max self, self).

(** [deque.popleft()] *)
Definition deque_popleft (self : SizedLogBuffer) : result SizedLogBuffer :=
  match buffer self with
  | [] => Raise (IndexError "pop from an empty deque")
  | _ :: rest => Ok {| buffer := rest; _max := _max self |}
  end.

(** [deque.append(item)] *)
Definition deque_append (item : pyval) (self : SizedLogBuffer) : SizedLogBuffer :=
  {| buffer := buffer self ++ [item]; _max := _max self |}.

(** The body shared by [append] and [write], under the write lock. *)
Definition locked_append (environ : option string) (item : pyval)
  (self : SizedLogBuffer) : result SizedLogBuffer :=
  ms <- max environ self ;;
  let '(m, self) := ms in
  self <- (if Z.of_nat (List.length (buffer self)) >=? m
           then deque_popleft self else Ok self) ;;
  Ok (deque_append item self).

Definition append (environ : option string) (item : pyval)
  (self : SizedLogBuffer) : result SizedLogBuffer :=
  locked_append environ item self.

Section Write.
(** [json.loads], and [int(timestamp * 1000)] on the number it found *)
Variable json_loads : string -> result pyval.
Variable epoch_millis : pyval -> result Z.

(** The entry [write] builds from a serialized loguru record. *)
Definition log_record (message : string) : result pyval :=
  record <- json_loads message ;;
  log_entry <- getitem record "text" ;;
  r <- getitem record "record" ;;
  t <- getitem r "time" ;;
  ts <- getitem t "timestamp" ;;
  epoch <- epoch_millis ts ;;
  Ok (PyDict [("timestamp"%string, PyInt epoch); ("message"%string, log_entry)]).

Definition write (environ : option string) (message : string)
  (self : SizedLogBuffer) : result SizedLogBuffer :=
  entry <- log_record message ;;
  locked_append environ entry self.

(** A sequence of calls on one buffer. *)
Inductive call : Type :=
| Append (item : pyval)
| Write (message : string).

Definition perform (environ : option string) (c : call)
  (self : SizedLogBuffer) : result SizedLogBuffer :=
  match c with
  | Append item => append environ item self
  | Write message => write environ message self
  end.

Fixpoint run (environ : option string) (cs : list call)
  (self : SizedLogBuffer) : result SizedLogBuffer :=
  match cs with
  | [] => Ok self
  | c :: cs' => self' <- perform environ c self ;; run environ cs' self'
  end.

(** What each call appends. *)
Definition appended (c : call) : result pyval :=
  match c with
  | Append item => Ok item
  | Write message => log_record message
  end.

Fixpoint all_appended (cs : list call) : result (list pyval) :=
  match cs with
  | [] => Ok []
  | c :: cs' =>
      x <- appended c ;; xs <- all_appended cs' ;; Ok (x :: xs)
  end.
End Write.

(** The last [n] elements of a list, in order. *)
Definition lastn {A} (n : nat) (l : list A) : list A :=
  skipn (List.length l - n) l.

(** *** The rest of the buffer's interface *)

(** [deque.pop()]: the right end. *)
Definition deque_pop (self : SizedLogBuffer) : result (pyval * SizedLogBuffer) :=
  match buffer self with
  | [] => Raise (IndexError "pop from an empty deque")
  | x :: rest =>
      Ok (last rest x, {| buffer := removelast (x :: rest); _max := _max self |})
  end.

(** [deque.appendleft(item)] *)
Definition deque_appendleft (item : pyval) (self : SizedLogBuffer) : SizedLogBuffer :=
  {| buffer := item :: buffer self; _max := _max self |}.

Definition read (self : SizedLogBuffer) : list pyval := buffer self.

Definition clear (self : SizedLogBuffer) : SizedLogBuffer :=
  {| buffer := []; _max := _max self |}.

Definition __len__ (self : SizedLogBuffer) : Z :=
  Z.of_nat (List.length (buffer self)).

Definition __bool__ (self : SizedLogBuffer) : bool :=
  Z.of_nat (List.length (buffer self)) >? 0.

(** [self.buffer[index]]: a negative index counts from the right end. *)
Definition __getitem__ (index : Z) (self : SizedLogBuffer) : result pyval :=
  let n := Z.of_nat (List.length (buffer self)) in
  let i := if index <? 0 then index + n else index in
  if (0 <=? i) && (i <? n)
  then match nth_error (buffer self) (Z.to_nat i) with
       | Some x => Ok x
       | None => Raise (IndexError "deque index out of range")
       end
  else Raise (IndexError "deque index out of range").

(** The body shared by [appendleft] and [extendleft]. *)
Definition locked_appendleft (environ : option string) (item : pyval)
  (self : SizedLogBuffer) : result SizedLogBuffer :=
  ms <- max environ self ;;
  let '(m, self) := ms in
  self <- (if Z.of_nat (List.length (buffer self)) >=? m
           then popped <- deque_pop self ;; Ok (snd popped) else Ok self) ;;
  Ok (deque_appendleft item self).

Definition appendleft (environ : option string) (item : pyval)
  (self : SizedLogBuffer) : result SizedLogBuffer :=
  locked_appendleft environ item self.

Definition pop (self : SizedLogBuffer) : result (pyval * SizedLogBuffer) :=
  deque_pop self.

Definition popleft (self : SizedLogBuffer) : result (pyval * SizedLogBuffer) :=
  match buffer self with
  | [] => Raise (IndexError "pop from an empty deque")
  | x :: rest => Ok (x, {| buffer := rest; _max := _max self |})
  end.

(** [extend] and [extendleft] run the body of [append] and of
    [appendleft] once per item; on no item they do not even read [max].
    Only the first round can raise (an empty deque stays empty only until
    then), so here too a raised exception carries no state. *)
Fixpoint extend (environ : option string) (iterable : list pyval)
  (self : SizedLogBuffer) : result SizedLogBuffer :=
  match iterable with
  | [] => Ok self
  | item :: rest =>
      self' <- locked_append environ item self ;; extend environ rest self'
  end.

Fixpoint extendleft (environ : option string) (iterable : list pyval)
  (self : SizedLogBuffer) : result SizedLogBuffer :=
  match iterable with
  | [] => Ok self
  | item :: rest =>
      self' <- locked_appendleft environ item self ;; extendleft environ rest self'
  end.

Definition enabled (environ : option string) (self : SizedLogBuffer)
  : result (bool * SizedLogBuffer) :=
  ms <- max environ self ;;
  let '(m, self) := ms in Ok (m >? 0, self).

Definition max_size (environ : option string) (self : SizedLogBuffer)
  : result (Z * SizedLogBuffer) :=
  max environ self.

(** The module-level functions act on the one [log_buffer] of the
    process, here the buffer they are given. *)
Definition get_logs (log_buffer : SizedLogBuffer) : list pyval := read log_buffer.

Definition clear_logs (log_buffer : SizedLogBuffer) : SizedLogBuffer :=
  clear log_buffer.

Definition set_log_buffer_size (size : Z) (log_buffer : SizedLogBuffer)
  : SizedLogBuffer :=
  set_max size log_buffer.

Section Operations.
Variable json_loads : string -> result pyval.
Variable epoch_millis : pyval -> result Z.

(** The calls that change a buffer. *)
Inductive operation : Type :=
| DoAppend (item : pyval)
| DoAppendLeft (item : pyval)
| DoExtend (iterable : list pyval)
| DoExtendLeft (iterable : list pyval)
| DoWrite (message : string)
| DoPop
| DoPopLeft
| DoClear.

Definition operate (environ : option string) (op : operation)
  (self : SizedLogBuffer) : result SizedLogBuffer :=
  match op with
  | DoAppend item => append environ item self
  | DoAppendLeft item => appendleft environ item self
  | DoExtend iterable => extend environ iterable self
  | DoExtendLeft iterable => extendleft environ iterable self
  | DoWrite message => write json_loads epoch_millis environ message self
  | DoPop => popped <- pop self ;; Ok (snd popped)
  | DoPopLeft => popped <- popleft self ;; Ok (snd popped)
  | DoClear => Ok (clear self)
  end.

Fixpoint operate_all (environ : option string) (ops : list operation)
  (self : SizedLogBuffer) : result SizedLogBuffer :=
  match ops with
  | [] => Ok self
  | op :: ops' =>
      self' <- operate environ op self ;; operate_all environ ops' self'
  end.
End Operations.

(** A string of decimal digits only, as [str.isdecimal] has it below 128. *)
Definition decimal_string (s : string) : bool :=
  negb (s =? "")%string
  && all_chars (fun c => match decimal_value c with Some _ => true | None => false end) s.

End Logger.

(** ** api/v1/openai_responses.py *)

Module OpenAIResponses.
Import Py.
#[local] Open Scope py_scope.

(** *** The graph check *)

(** [node.get("data", {}).get("type")] *)
Definition node_type (node : pyval) : result pyval :=
  data <- get node "data" (PyDict []) ;;
  get data "type" PyNone.

(** [any(node_type(node) in [a, b] for node in nodes)]: [any] stops at the
    first node that matches and looks at no later one. *)
Fixpoint any_node_of_type (a b : string) (nodes : list pyval) : result bool :=
  match nodes with
  | [] => Ok false
  | node :: rest =>
      t <- node_type node ;;
      if in_literals t a b then Ok true else any_node_of_type a b rest
  end.

Definition has_component (a b : string) (flow_data : option dict) : result bool :=
  match flow_data with
  | None => Ok false
  | Some d =>
      if negb (truthy (PyDict d)) || negb (has_key "nodes" d) then Ok false
      else
        nodes <- getitem (PyDict d) "nodes" ;;
        xs <- iter nodes ;;
        any_node_of_type a b xs
  end.

Definition has_chat_input (flow_data : option dict) : result bool :=
  has_component "ChatInput" "Chat Input" flow_data.

Definition has_chat_output (flow_data : option dict) : result bool :=
  has_component "ChatOutput" "Chat Output" flow_data.

(** *** Schemas (schema/openai_responses_schemas.py) *)

Record OpenAIMessage : Type := {
  role : string;
  content : string
}.

(** The sampling fields ([temperature], [max_tokens], [top_p], the
    penalties, [stop], [user]) are never read by the adapter. *)
Record OpenAIResponsesRequest : Type := {
  model : string;
  messages : list OpenAIMessage;
  stream : bool;
  session_id : option string;
  tweaks : option dict
}.

Record OpenAIResponsesResponse : Type := {
  response_id : string;
  response_object : string;
  response_created : Z;
  response_model : string;
  response_choices : list pyval;
  response_usage : option dict;
  response_system_fingerprint : option string
}.

Record OpenAIResponsesStreamChunk : Type := {
  chunk_id : string;
  chunk_object : string;
  chunk_created : Z;
  chunk_model : string;
  chunk_choices : list pyval;
  chunk_system_fingerprint : option string
}.

Record OpenAIErrorResponse : Type := {
  error : dict
}.

(** [create_openai_error(error_message)] of openai_responses.py, with its
    default [error_type] *)
Definition create_openai_error (error_message : string) : OpenAIErrorResponse :=
  {| error := [("message", PyStr error_message);
               ("type", PyStr "invalid_request_error");
               ("param", PyNone);
               ("code", PyNone)] |}.

(** [error_response.model_dump()] *)
Definition model_dump (e : OpenAIErrorResponse) : pyval :=
  PyDict [("error", PyDict (error e))].

(** *** Collaborators and the world they act on *)

Record FlowRead : Type := {
  flow_id : string;
  flow_name : string;
  flow_data : option dict
}.

Record UserRead : Type := {
  user_id : string
}.

Record SimplifiedAPIRequest : Type := {
  input_value : string;
  input_type : string;
  output_type : string;
  request_tweaks : dict;
  request_session_id : option string
}.

Record RunPayload : Type := {
  payload_flow_id : string;
  payload_flow_name : string;
  payload_user_id : string
}.

(** One execution of a flow: which executor ran, and on what. *)
Inductive execution : Type :=
| SimpleRun (flow : FlowRead) (request : SimplifiedAPIRequest) (user : string)
| GeneratorRun (flow : FlowRead) (request : SimplifiedAPIRequest) (user : string).

Record world : Type := {
  uuids_drawn : nat;
  clock_reads : nat;
  executions : list execution;
  background_tasks : list RunPayload;
  log : list string
}.

Definition new_world : world :=
  {| uuids_drawn := 0; clock_reads := 0; executions := [];
     background_tasks := []; log := [] |}.

(** Computations that read and change the world and may raise. *)
Definition M (A : Type) : Type := world -> result A * world.

Definition ret {A} (a : A) : M A := fun w => (Ok a, w).
Definition raise {A} (e : exception) : M A := fun w => (Raise e, w).
Definition lift {A} (r : result A) : M A := fun w => (r, w).
Definition bind {A B} (m : M A) (k : A -> M B) : M B :=
  fun w => match m w with
           | (Ok a, w') => k a w'
           | (Raise e, w') => (Raise e, w')
           end.
Definition try_except {A} (m : M A) (handler : exception -> M A) : M A :=
  fun w => match m w with
           | (Ok a, w') => (Ok a, w')
           | (Raise e, w') => handler e w'
           end.

Notation "'do' x <- m ; k" := (bind m (fun x => k))
  (at level 10, x name, m at level 100, k at level 200).

(** An asynchronous generator run to its end: what it yielded, in order,
    and the exception that ended it, if one did. *)
Definition generator (A : Type) : Type := world -> (list A * option exception) * world.

(** The objects the adapter passes around: plain data, an asynchronous
    generator, and the coroutine that calling an [async def] function
    returns (its body runs when it is awaited). *)
Inductive pyobject : Type :=
| Value (v : pyval)
| AsyncGenerator (g : generator pyval)
| Coroutine (body : world -> result pyobject * world).

Definition object_type_name (o : pyobject) : string :=
  match o with
  | Value v => type_name v
  | AsyncGenerator _ => "async_generator"
  | Coroutine _ => "coroutine"
  end.

(** [await o] *)
Definition await (o : pyobject) : M pyobject :=
  match o with
  | Coroutine body => body
  | _ => raise (TypeError ("object " ++ object_type_name o
                           ++ " can't be used in 'await' expression"))
  end.

(** [async for chunk in o]: only an object with [__aiter__] can be
    iterated; on any other the loop raises before its first round. *)
Definition aiter (o : pyobject) : generator pyval :=
  match o with
  | AsyncGenerator g => g
  | _ => fun w =>
      (([], Some (TypeError ("'async for' requires an object with __aiter__ method, got "
                             ++ object_type_name o))), w)
  end.

(** What the generator sends: [data: <json>] frames and the terminator. *)
Inductive payload : Type :=
| StreamChunk (c : OpenAIResponsesStreamChunk)
| ErrorResponse (e : OpenAIErrorResponse).

Inductive frame : Type :=
| Data (p : payload)
| Done.

Inductive response : Type :=
| JSONResponse (r : OpenAIResponsesResponse)
| StreamingResponse (body : generator frame) (media_type : string)
    (headers : list (string * string)).

(** What the adapter imports and does not define: the two sources of
    nondeterminism ([str(uuid.uuid4())] and [int(time.time())], as the
    value of the n-th call), the flow lookup, the two flow executors, and
    [str(e)] of an [HTTPException], and pydantic's [model_dump_json].
    [run_flow_generator] is given by what it yields and how it ends. *)
Record collaborators : Type := {
  uuid4 : nat -> string;
  time_time : nat -> Z;
  get_flow_by_id_or_endpoint_name : string -> string -> result (option FlowRead);
  simple_run_flow : FlowRead -> SimplifiedAPIRequest -> string -> result pyval;
  run_flow_generator :
    FlowRead -> SimplifiedAPIRequest -> string -> list pyval * option exception;
  str_HTTPException : Z -> pyval -> string;
  model_dump_json : payload -> string
}.

Section Adapter.
Variable env : collaborators.

Definition draw_uuid (w : world) : string * world :=
  (uuid4 env (uuids_drawn w),
   {| uuids_drawn := S (uuids_drawn w); clock_reads := clock_reads w;
      executions := executions w; background_tasks := background_tasks w;
      log := log w |}).

Definition read_clock (w : world) : Z * world :=
  (time_time env (clock_reads w),
   {| uuids_drawn := uuids_drawn w; clock_reads := S (clock_reads w);
      executions := executions w; background_tasks := background_tasks w;
      log := log w |}).

Definition record_execution (x : execution) (w : world) : world :=
  {| uuids_drawn := uuids_drawn w; clock_reads := clock_reads w;
     executions := executions w ++ [x]; background_tasks := background_tasks w;
     log := log w |}.

Definition record_log (line : string) (w : world) : world :=
  {| uuids_drawn := uuids_drawn w; clock_reads := clock_reads w;
     executions := executions w; background_tasks := background_tasks w;
     log := log w ++ [line] |}.

Definition record_task (p : RunPayload) (w : world) : world :=
  {| uuids_drawn := uuids_drawn w; clock_reads := clock_reads w;
     executions := executions w; background_tasks := background_tasks w ++ [p];
     log := log w |}.

Definition uuid4_str : M string := fun w => let (u, w') := draw_uuid w in (Ok u, w').
Definition int_time : M Z := fun w => let (t, w') := read_clock w in (Ok t, w').
Definition logger_error (line : string) : M unit := fun w => (Ok tt, record_log line w).
Definition add_task (p : RunPayload) : M unit := fun w => (Ok tt, record_task p w).

(** [str(e)] *)
Definition str (e : exception) : string :=
  match e with
  | HTTPException status_code detail => str_HTTPException env status_code detail
  | PyException _ msg => msg
  | PyBaseException _ msg => msg
  end.

(** [await simple_run_flow(...)] *)
Definition call_simple_run_flow (flow : FlowRead) (request : SimplifiedAPIRequest)
  (user : string) : M pyval :=
  fun w => (simple_run_flow env flow request user,
            record_execution (SimpleRun flow request user) w).

(** The inner [stream_generator] of [run_flow_for_openai_responses]:
    the chunks of [run_flow_generator] that are truthy. *)
Definition stream_generator (flow : FlowRead) (request : SimplifiedAPIRequest)
  (user : string) : generator pyval :=
  fun w =>
    let (chunks, ending) := run_flow_generator env flow request user in
    ((filter truthy chunks, ending),
     record_execution (GeneratorRun flow request user) w).

(** [tweaks or {}] *)
Definition tweaks_or_empty (tweaks : option dict) : dict :=
  match tweaks with
  | Some d => if truthy (PyDict d) then d else []
  | None => []
  end.

(** [run_flow_for_openai_responses] is an [async def]: a call evaluates
    to a coroutine and runs nothing. *)
Definition run_flow_for_openai_responses (flow : FlowRead) (message : string)
  (user : string) (session : option string) (tweaks : option dict)
  (stream : bool) : pyobject :=
  Coroutine
    (try_except
       (let request :=
          {| input_value := message; input_type := "chat"; output_type := "chat";
             request_tweaks := tweaks_or_empty tweaks;
             request_session_id := session |} in
        if stream then ret (AsyncGenerator (stream_generator flow request user))
        else do result <- call_simple_run_flow flow request user; ret (Value result))
       (fun e =>
          if is_Exception e then
            do _ <- logger_error ("Error running flow for OpenAI responses: " ++ str e);
            raise (HTTPException 500 (PyStr (str e)))
          else raise e)).

(** *** The streaming path *)

Definition content_choice (chunk : pyval) : pyval :=
  PyDict [("index", PyInt 0);
          ("delta", PyDict [("content", chunk)]);
          ("finish_reason", PyNone)].

Definition stop_choice : pyval :=
  PyDict [("index", PyInt 0);
          ("delta", PyDict []);
          ("finish_reason", PyStr "stop")].

Definition stream_chunk (uuid : string) (now : Z) (model : string)
  (choice : pyval) : OpenAIResponsesStreamChunk :=
  {| chunk_id := "chatcmpl-" ++ uuid;
     chunk_object := "chat.completion.chunk";
     chunk_created := now;
     chunk_model := model;
     chunk_choices := [choice];
     chunk_system_fingerprint := None |}.

(** One envelope, with a fresh id and the time of its making. *)
Definition envelope (model : string) (choice : pyval) (w : world) : frame * world :=
  let (u, w) := draw_uuid w in
  let (t, w) := read_clock w in
  (Data (StreamChunk (stream_chunk u t model choice)), w).

(** The body of the [async for] loop, over the chunks it receives. *)
Fixpoint content_frames (model : string) (chunks : list pyval) (w : world)
  : list frame * world :=
  match chunks with
  | [] => ([], w)
  | chunk :: rest =>
      if truthy chunk then
        let (f, w) := envelope model (content_choice chunk) w in
        let (fs, w) := content_frames model rest w in
        (f :: fs, w)
      else content_frames model rest w
  end.

(** [generate_stream], with the object its [async for] iterates as
    [source]. *)
Definition generate_stream (request : OpenAIResponsesRequest) (source : pyobject)
  : generator frame :=
  fun w =>
    let '((chunks, ending), w) := aiter source w in
    let (frames, w) := content_frames (model request) chunks w in
    match ending with
    | None =>
        let (final, w) := envelope (model request) stop_choice w in
        ((frames ++ [final; Done])%list, None, w)
    | Some e =>
        if is_Exception e then
          let w := record_log ("Error in streaming: " ++ str e) w in
          ((frames ++ [Data (ErrorResponse (create_openai_error (str e)))])%list, None, w)
        else (frames, Some e, w)
    end.



(** *** The non-streaming path *)

(** [v and len(v) > 0] as a condition *)
Definition nonempty (v : pyval) : result bool :=
  if truthy v then n <- len v ;; Ok (n >? 0)%Z else Ok false.

(** The nested unwrapping of the flow result. *)
Definition extract_response_content (result : pyobject) : Py.result pyval :=
  match result with
  | Value (PyDict d) =>
      let result := PyDict d in
      c <- contains "outputs" result ;;
      if negb c then Ok (PyStr "") else
      outputs <- getitem result "outputs" ;;
      c <- nonempty outputs ;;
      if negb c then Ok (PyStr "") else
      first_output <- getitem0 outputs ;;
      c <- contains "outputs" first_output ;;
      if negb c then Ok (PyStr "") else
      output_data <- getitem first_output "outputs" ;;
      c <- nonempty output_data ;;
      if negb c then Ok (PyStr "") else
      first_data <- getitem0 output_data ;;
      c <- contains "results" first_data ;;
      if negb c then Ok (PyStr "") else
      results <- getitem first_data "results" ;;
      c <- contains "message" results ;;
      if negb c then Ok (PyStr "") else
      message <- getitem results "message" ;;
      get message "text" (PyStr "")
  | _ => Ok (PyStr "")
  end.

Definition completion_choice (response_content : pyval) : pyval :=
  PyDict [("index", PyInt 0);
          ("message", PyDict [("role", PyStr "assistant");
                              ("content", response_content)]);
          ("finish_reason", PyStr "stop")].

(** The [usage] dictionary: [len(text.split())] of both texts. *)
Definition usage (message_content : string) (response_content : pyval)
  : result dict :=
  let prompt := Z.of_nat (List.length (str_split message_content)) in
  words <- split response_content ;;
  let completion := Z.of_nat (List.length words) in
  Ok [("prompt_tokens", PyInt prompt);
      ("completion_tokens", PyInt completion);
      ("total_tokens", PyInt (prompt + completion))].

Definition streaming_headers : list (string * string) :=
  [("Cache-Control", "no-cache");
   ("Connection", "keep-alive");
   ("Content-Type", "text/plain; charset=utf-8")].

(** [request.session_id or str(uuid.uuid4())] *)
Definition session_id_or_uuid (request : OpenAIResponsesRequest) : M string :=
  match session_id request with
  | Some s => if truthy (PyStr s) then ret s else uuid4_str
  | None => uuid4_str
  end.

(** [not has_chat_input(flow.data) or not has_chat_output(flow.data)] *)
Definition lacks_chat_components (flow : FlowRead) : result bool :=
  has_input <- has_chat_input (flow_data flow) ;;
  if negb has_input then Ok true
  else has_output <- has_chat_output (flow_data flow) ;; Ok (negb has_output).

Definition bad_request (error_message : string) : exception :=
  HTTPException 400 (model_dump (create_openai_error error_message)).

(** *** The endpoint *)

(** The two branches of [if request.stream]. *)
Definition respond (request : OpenAIResponsesRequest) (current_user : UserRead)
  (flow : FlowRead) (message_content : string) (session : string) : M response :=
  if stream request then
    ret (StreamingResponse
           (generate_stream request
              (run_flow_for_openai_responses flow message_content
                 (user_id current_user) (Some session) (tweaks request) true))
           "text/plain" streaming_headers)
  else
    do result <- await (run_flow_for_openai_responses flow message_content
                          (user_id current_user) (Some session)
                          (tweaks request) false);
    do response_content <- lift (extract_response_content result);
    do u <- uuid4_str;
    do t <- int_time;
    do counts <- lift (usage message_content response_content);
    ret (JSONResponse
           {| response_id := "chatcmpl-" ++ u;
              response_object := "chat.completion";
              response_created := t;
              response_model := model request;
              response_choices := [completion_choice response_content];
              response_usage := Some counts;
              response_system_fingerprint := None |}).

(** The [except] clauses of the endpoint. *)
Definition on_error (e : exception) : M response :=
  match e with
  | HTTPException _ _ => raise e
  | PyException _ _ =>
      do _ <- logger_error ("Unexpected error in OpenAI chat completions: " ++ str e);
      raise (HTTPException 500
               (model_dump (create_openai_error
                              ("Internal server error: " ++ str e))))
  | PyBaseException _ _ => raise e
  end.

Definition openai_chat_completions (request : OpenAIResponsesRequest)
  (current_user : UserRead) : M response :=
  try_except
    (do flow <- lift (get_flow_by_id_or_endpoint_name env (model request)
                        (user_id current_user));
     match flow with
     | None =>
         raise (HTTPException 404
                  (model_dump (create_openai_error
                                 ("Flow '" ++ model request ++ "' not found"))))
     | Some flow =>
         do invalid <- lift (lacks_chat_components flow);
         if invalid : bool then
           raise (bad_request
                    "Flow must have both ChatInput and ChatOutput components for OpenAI compatibility")
         else
           match messages request with
           | [] => raise (bad_request "At least one message is required")
           | m :: ms =>
               let last_message := last ms m in
               let message_content := content last_message in
               do session <- session_id_or_uuid request;
               do _ <- add_task {| payload_flow_id := flow_id flow;
                                   payload_flow_name := flow_name flow;
                                   payload_user_id := user_id current_user |};
               respond request current_user flow message_content session
           end
     end)
    on_error.

(** What the client of a response receives as frames: the body of a
    streaming response run to its end. *)
Definition emitted (r : response) : generator frame :=
  match r with
  | StreamingResponse body _ _ => body
  | JSONResponse _ => fun w => (([], None), w)
  end.
End Adapter.

(** *** Shapes of data the properties below speak about *)

(** A node that is a dictionary without a "data" entry, or whose "data" is
    a dictionary without a "type" entry. *)
Definition lacks_type_entry (node : pyval) : bool :=
  match node with
  | PyDict nd =>
      match lookup "data" nd with
      | None => true
      | Some (PyDict dd) => negb (has_key "type" dd)
      | Some _ => false
      end
  | _ => false
  end.

(** Flow data that is [None], or a dictionary without "nodes", or whose
    "nodes" is a list of nodes that all lack a "data" or a "type" entry. *)
Definition graph_entries_missing (flow_data : option dict) : bool :=
  match flow_data with
  | None => true
  | Some d =>
      match lookup "nodes" d with
      | None => true
      | Some (PyList xs) => forallb lacks_type_entry xs
      | Some _ => false
      end
  end.










(** A node the graph check can look at: a dictionary whose "data", when it
    has one, is a dictionary. *)
Definition well_formed_node (node : pyval) : bool :=
  match node with
  | PyDict nd =>
      match lookup "data" nd with
      | None | Some (PyDict _) => true
      | Some _ => false
      end
  | _ => false
  end.

(** A node whose "data" has the "type" [a] or [b]. *)
Definition node_has_type (a b : string) (node : pyval) : bool :=
  match node with
  | PyDict nd =>
      match lookup "data" nd with
      | Some (PyDict dd) =>
          match lookup "type" dd with
          | Some t => in_literals t a b
          | None => false
          end
      | _ => false
      end
  | _ => false
  end.

(** An error detail of the shape [{error: {message, type, param, code}}]. *)
Definition openai_shaped (detail : pyval) : Prop :=
  exists error_message, detail = model_dump (create_openai_error error_message).

(** The envelopes of a list of choices, made one after the other from the
    draw and the clock reading numbered [n] and [t] on. *)
Definition envelopes (env : collaborators) (n t : nat) (model : string)
  (choices : list pyval) : list frame :=
  map (fun kc : nat * pyval =>
         Data (StreamChunk (stream_chunk (uuid4 env (n + fst kc))
                              (time_time env (t + fst kc)) model (snd kc))))
      (combine (seq 0 (List.length choices)) choices).

(** The nodes of a graph: none when there is no graph data or no "nodes"
    entry, the elements when "nodes" is a list. *)
Definition graph_nodes (flow_data : option dict) : option (list pyval) :=
  match flow_data with
  | None => Some []
  | Some d =>
      match lookup "nodes" d with
      | None => Some []
      | Some (PyList nodes) => Some nodes
      | Some _ => None
      end
  end.

(** A chat-input-capable vertex and a chat-output-capable vertex, by the
    type tags of the nodes. *)
Definition has_chat_input_vertex (nodes : list pyval) : bool :=
  existsb (node_has_type "ChatInput" "Chat Input") nodes.

Definition has_chat_output_vertex (nodes : list pyval) : bool :=
  existsb (node_has_type "ChatOutput" "Chat Output") nodes.

(** A computation on Python values that raises instances of ordinary
    exception classes only (TypeError, KeyError, ...). *)
Definition raises_exceptions_only {A} (r : Py.result A) : Prop :=
  forall e, r = Raise e -> exists cls msg, e = PyException cls msg.

End OpenAIResponses.

(** ** Concrete inputs used by the examples below *)

Module Samples.
Import Py Logger OpenAIResponses.

(** A [json.loads] that finds one serialized record in every message, and
    the scaling of an integral timestamp to milliseconds. *)
Definition sample_json_loads (message : string) : result pyval :=
  Ok (PyDict [("text", PyStr message);
              ("record", PyDict [("time", PyDict [("timestamp", PyInt 7)])])]).

Definition sample_epoch_millis (timestamp : pyval) : result Z :=
  match timestamp with
  | PyInt z => Ok (z * 1000)%Z
  | _ => Raise (TypeError "unsupported operand type(s) for *")
  end.

(** The result of the non-streaming example: the fully nested answer. *)
Definition nested (text : pyval) : pyval :=
  PyDict [("outputs",
           PyList [PyDict [("outputs",
                            PyList [PyDict [("results",
                                             PyDict [("message",
                                                      PyDict [("text", text)])])]])]])].

Definition node_of_type (type : pyval) : pyval :=
  PyDict [("id", PyStr "node"); ("data", PyDict [("type", type)])].

Definition flow_with (data : option dict) : FlowRead :=
  {| flow_id := "3f2a"; flow_name := "Assistant"; flow_data := data |}.

(** A flow with a chat input and a chat output. *)
Definition chat_flow : FlowRead :=
  flow_with (Some [("nodes", PyList [node_of_type (PyStr "ChatInput");
                                     node_of_type (PyStr "OpenAIModel");
                                     node_of_type (PyStr "ChatOutput")]);
                   ("edges", PyList [])]).

(** A flow with a chat input and no chat output. *)
Definition flow_without_output : FlowRead :=
  flow_with (Some [("nodes", PyList [node_of_type (PyStr "ChatInput");
                                     node_of_type (PyStr "OpenAIModel")])]).

(** A flow one of whose nodes has a null "data". *)
Definition flow_with_null_data : FlowRead :=
  flow_with (Some [("nodes", PyList [PyDict [("data", PyNone)]])]).

(** A flow whose only node has no "data" entry. *)
Definition flow_without_node_data : FlowRead :=
  flow_with (Some [("nodes", PyList [PyDict [("id", PyStr "node")]])]).

(** Collaborators that resolve every model to [flow], answer every simple
    run with [answer], and stream [chunks] ending as [ending] says. *)
Definition mocked (flow : FlowRead) (answer : result pyval)
  (chunks : list pyval) (ending : option exception) : collaborators :=
  {| uuid4 := fun n => String (ascii_of_nat (97 + n)) "";
     time_time := fun n => (1700000000 + Z.of_nat n)%Z;
     get_flow_by_id_or_endpoint_name := fun _ _ => Ok (Some flow);
     simple_run_flow := fun _ _ _ => answer;
     run_flow_generator := fun _ _ _ => (chunks, ending);
     str_HTTPException := fun status _ => "HTTPException";
     model_dump_json := fun _ => "{}" |}.

Definition user : UserRead := {| user_id := "u-1" |}.

Definition chat (stream : bool) (messages : list OpenAIMessage) : OpenAIResponsesRequest :=
  {| model := "3f2a"; messages := messages; stream := stream;
     session_id := None; tweaks := None |}.

Definition conversation : list OpenAIMessage :=
  [{| role := "system"; content := "be brief" |};
   {| role := "user"; content := "a b c" |}].


(** The run request made for the last message of [conversation] in a
    session named "a", and the generator the awaited run call returns. *)
Definition run_request : SimplifiedAPIRequest :=
  {| input_value := "a b c"; input_type := "chat"; output_type := "chat";
     request_tweaks := []; request_session_id := Some "a" |}.

Definition awaited_run (env : collaborators) : pyobject :=
  AsyncGenerator (stream_generator env chat_flow run_request (user_id user)).

(** Flows that stream nothing, that stream two chunks, and that raise
    after their first chunk. *)
Definition silent : collaborators := mocked chat_flow (Ok PyNone) [] None.

Definition hel_lo : collaborators :=
  mocked chat_flow (Ok PyNone) [PyStr "Hel"; PyStr "lo"] None.


(** A flow with a chat input, no chat output, and a node whose "data" is
    null. *)
Definition flow_with_input_and_null_data : FlowRead :=
  flow_with (Some [("nodes", PyList [node_of_type (PyStr "ChatInput");
                                     PyDict [("data", PyNone)]])]).

(** A string of [n] zeros. *)
Definition zeros (n : N) : string :=
  N.iter n (fun s => String "0" s) EmptyString.

(** A flow run that fails with an HTTP error of its own. *)
Definition forbidden : exception := HTTPException 403 (PyStr "forbidden").

(** Collaborators whose lookup finds no flow. *)
Definition without_flow : collaborators :=
  {| uuid4 := fun n => String (ascii_of_nat (97 + n)) "";
     time_time := fun n => (1700000000 + Z.of_nat n)%Z;
     get_flow_by_id_or_endpoint_name := fun _ _ => Ok None;
     simple_run_flow := fun _ _ _ => Ok PyNone;
     run_flow_generator := fun _ _ _ => ([], None);
     str_HTTPException := fun status _ => "HTTPException";
     model_dump_json := fun _ => "{}" |}.

(** A cancellation, which is no [Exception]. *)
Definition cancelled : exception := PyBaseException "CancelledError" "".

End Samples.

(** * Properties *)

(** ** The sized log buffer *)

Module LoggerFacts.
Import Py Logger.
#[local] Open Scope Z_scope.
#[local] Open Scope list_scope.

Section LastN.
Context {A : Type}.
Implicit Types l r : list A.

Lemma lastn_short n l : (List.length l <= n)%nat -> lastn n l = l.
Proof.
  intros H. unfold lastn.
  replace (List.length l - n)%nat with 0%nat by lia. reflexivity.
Qed.

Lemma lastn_app_long n l r :
  (n <= List.length r)%nat -> lastn n (l ++ r) = lastn n r.
Proof.
  intros H. unfold lastn.
  rewrite length_app, skipn_app.
  rewrite skipn_all2 by lia. simpl. f_equal. lia.
Qed.

Lemma lastn_app_lastn n l r : lastn n (lastn n l ++ r) = lastn n (l ++ r).
Proof.
  destruct (Nat.le_gt_cases (List.length l) n) as [Hle | Hgt].
  - now rewrite (lastn_short n l Hle).
  - unfold lastn at 1 3.
    rewrite !length_app, !skipn_app.
    unfold lastn. rewrite length_skipn, skipn_skipn.
    f_equal; f_equal; lia.
Qed.

Lemma lastn_snoc_full n x a l :
  List.length (a :: l) = n -> lastn n ((a :: l) ++ [x]) = l ++ [x].
Proof.
  intros H. unfold lastn. rewrite length_app, H.
  replace (n + List.length [x] - n)%nat with 1%nat by (simpl; lia).
  reflexivity.
Qed.

Lemma length_lastn n l : (List.length (lastn n l) <= n)%nat.
Proof. unfold lastn. rewrite length_skipn. lia. Qed.
End LastN.

Lemma max_positive environ self N self' :
  max environ self = Ok (N, self') -> N <> 0 ->
  _max self' = N /\ buffer self' = buffer self.
Proof.
  unfold max. intros H HN.
  destruct (_max self =? 0) eqn:E.
  - destruct (isdigit _).
    + destruct (int _) as [n|e]; simpl in H; [|discriminate].
      injection H as <- <-. now split.
    + injection H as <- <-. apply Z.eqb_eq in E. contradiction.
  - injection H as <- <-. now split.
Qed.

Lemma max_zero environ self self' :
  max environ self = Ok (0, self') -> buffer self' = buffer self.
Proof.
  unfold max. intros H.
  destruct (_max self =? 0).
  - destruct (isdigit _).
    + destruct (int _) as [n|e]; simpl in H; [|discriminate].
      now injection H as _ <-.
    + now injection H as _ <-.
  - now injection H as _ <-.
Qed.

Lemma max_stored environ self :
  _max self <> 0 -> max environ self = Ok (_max self, self).
Proof.
  intros H. unfold max. apply Z.eqb_neq in H. now rewrite H.
Qed.

(** One append on a buffer that holds at most its capacity [N > 0]. *)
Lemma locked_append_ring environ item self self0 N :
  max environ self = Ok (N, self0) -> 0 < N ->
  Z.of_nat (List.length (buffer self)) <= N ->
  exists self',
    locked_append environ item self = Ok self'
    /\ _max self' = N
    /\ buffer self' = lastn (Z.to_nat N) (buffer self ++ [item]).
Proof.
  intros Hmax HN Hlen.
  destruct (max_positive _ _ _ _ Hmax) as [HM HB]; [lia|].
  unfold locked_append. rewrite Hmax. simpl. rewrite HB.
  destruct (Z.of_nat (List.length (buffer self)) >=? N) eqn:E.
  - unfold deque_popleft. rewrite HB.
    destruct (buffer self) as [|a l] eqn:Eb.
    + simpl in E. lia.
    + simpl. eexists; repeat split; [exact HM|].
      simpl buffer. symmetry. apply (lastn_snoc_full (Z.to_nat N) item a l).
      apply Z.geb_le in E. lia.
  - simpl. eexists; repeat split; [exact HM|].
    simpl buffer. rewrite HB. symmetry. apply lastn_short.
    rewrite length_app. simpl. rewrite Z.geb_leb in E. apply Z.leb_gt in E. lia.
Qed.

(** An append on an empty buffer of capacity zero pops from the empty
    deque. *)
Lemma locked_append_disabled environ item self self0 :
  max environ self = Ok (0, self0) -> buffer self = [] ->
  locked_append environ item self = Raise (IndexError "pop from an empty deque").
Proof.
  intros Hmax Hb. unfold locked_append. rewrite Hmax. simpl.
  rewrite (max_zero _ _ _ Hmax), Hb. simpl.
  unfold deque_popleft. now rewrite (max_zero _ _ _ Hmax), Hb.
Qed.

Section Calls.
Variable json_loads : string -> result pyval.
Variable epoch_millis : pyval -> result Z.

#[local] Abbreviation run := (run json_loads epoch_millis).
#[local] Abbreviation perform := (perform json_loads epoch_millis).
#[local] Abbreviation appended := (appended json_loads epoch_millis).
#[local] Abbreviation all_appended := (all_appended json_loads epoch_millis).

Lemma perform_ring environ c x self self0 N :
  appended c = Ok x ->
  max environ self = Ok (N, self0) -> 0 < N ->
  Z.of_nat (List.length (buffer self)) <= N ->
  exists self',
    perform environ c self = Ok self'
    /\ _max self' = N
    /\ buffer self' = lastn (Z.to_nat N) (buffer self ++ [x]).
Proof.
  intros Hx Hmax HN Hlen. destruct c as [item | message]; simpl in *.
  - injection Hx as <-. now apply locked_append_ring with self0.
  - unfold write. rewrite Hx. simpl. now apply locked_append_ring with self0.
Qed.

Lemma run_ring environ N : 0 < N ->
  forall cs xs self self0,
    all_appended cs = Ok xs ->
    max environ self = Ok (N, self0) ->
    Z.of_nat (List.length (buffer self)) <= N ->
    exists self',
      run environ cs self = Ok self'
      /\ buffer self' = lastn (Z.to_nat N) (buffer self ++ xs).
Proof.
  intros HN. induction cs as [|c cs IH]; intros xs self self0 Hxs Hmax Hlen.
  - injection Hxs as <-. exists self. split; [reflexivity|].
    rewrite app_nil_r. symmetry. apply lastn_short. lia.
  - simpl in Hxs.
    destruct (appended c) as [x|] eqn:Hx; simpl in Hxs; [|discriminate].
    destruct (all_appended cs) as [xs'|] eqn:Hxs'; simpl in Hxs; [|discriminate].
    injection Hxs as <-.
    destruct (perform_ring environ c x self self0 N Hx Hmax HN Hlen)
      as (self1 & Hstep & HM & HB).
    destruct (IH xs' self1 self1 eq_refl) as (self2 & Hrun & HB2).
    + rewrite <- HM. apply max_stored. lia.
    + rewrite HB. pose proof (length_lastn (Z.to_nat N) (buffer self ++ [x])). lia.
    + exists self2. simpl. rewrite Hstep. simpl. split; [exact Hrun|].
      rewrite HB2, HB, lastn_app_lastn, <- app_assoc. reflexivity.
Qed.
End Calls.

(** C7, as amended: on a buffer whose capacity [max] is [N >= 1] and that
    holds at most [N] entries (a new buffer holds none), every sequence of
    [append] and [write] calls succeeds and leaves the last [N] of the
    entries held and appended, in append order, the oldest ones gone; after
    more than [N] appends these are exactly the [N] most recently appended
    entries. *)
Theorem ring_buffer_keeps_most_recent
  (json_loads : string -> result pyval) (epoch_millis : pyval -> result Z)
  (environ : option string) (N : Z) (self self0 : SizedLogBuffer)
  (cs : list call) (xs : list pyval) :
  0 < N ->
  max environ self = Ok (N, self0) ->
  Z.of_nat (List.length (buffer self)) <= N ->
  all_appended json_loads epoch_millis cs = Ok xs ->
  exists self',
    run json_loads epoch_millis environ cs self = Ok self'
    /\ buffer self' = lastn (Z.to_nat N) (buffer self ++ xs)
    /\ (N < Z.of_nat (List.length xs) -> buffer self' = lastn (Z.to_nat N) xs).
Proof.
  intros HN Hmax Hlen Hxs.
  destruct (run_ring json_loads epoch_millis environ N HN cs xs self self0 Hxs Hmax Hlen)
    as (self' & Hrun & HB).
  exists self'. repeat split; trivial.
  intros Hmore. rewrite HB. apply lastn_app_long. lia.
Qed.

Lemma ring_buffer_keeps_most_recent_witness :
  0 < 2
  /\ max (Some "2"%string) __init__ = Ok (2, set_max 2 __init__)
  /\ exists self',
       run Samples.sample_json_loads Samples.sample_epoch_millis (Some "2"%string)
         [Append (PyInt 1); Write "two"; Append (PyInt 3)] __init__ = Ok self'
       /\ buffer self'
          = lastn (Z.to_nat 2)
              (buffer __init__
               ++ [PyInt 1;
                   PyDict [("timestamp"%string, PyInt 7000);
                           ("message"%string, PyStr "two")];
                   PyInt 3])
       /\ (2 < Z.of_nat (List.length
                           [PyInt 1;
                            PyDict [("timestamp"%string, PyInt 7000);
                                    ("message"%string, PyStr "two")];
                            PyInt 3]) ->
           buffer self'
           = lastn (Z.to_nat 2)
               [PyInt 1;
                PyDict [("timestamp"%string, PyInt 7000);
                        ("message"%string, PyStr "two")];
                PyInt 3]).
Proof.
  split; [lia|]. split; [reflexivity|].
  apply (ring_buffer_keeps_most_recent
           Samples.sample_json_loads Samples.sample_epoch_millis
           (Some "2"%string) 2 __init__ (set_max 2 __init__)).
  - lia.
  - reflexivity.
  - simpl. lia.
  - reflexivity.
Defined.

(** C7 as stated fails at capacity 0: one append to a new buffer whose
    capacity reads 0 raises instead of leaving the 0 most recent entries. *)
Lemma ring_buffer_capacity_zero_counterexample :
  max None __init__ = Ok (0, __init__)
  /\ all_appended Samples.sample_json_loads Samples.sample_epoch_millis
       [Append (PyInt 1)] = Ok [PyInt 1]
  /\ 0 < Z.of_nat (List.length [PyInt 1])
  /\ run Samples.sample_json_loads Samples.sample_epoch_millis None
       [Append (PyInt 1)] __init__
     = Raise (IndexError "pop from an empty deque")
  /\ ~ (exists self',
          run Samples.sample_json_loads Samples.sample_epoch_millis None
            [Append (PyInt 1)] __init__ = Ok self'
          /\ buffer self' = lastn (Z.to_nat 0) [PyInt 1]).
Proof.
  repeat split; try reflexivity; try (simpl; lia).
  intros (self' & H & _). discriminate H.
Qed.

(** C10: on an empty buffer whose capacity [max] reads 0 (as it does on a
    new buffer when the environment variable is unset), [append] raises
    IndexError, and so does [write] once it has decoded its message: the
    overflow branch pops from the empty deque.  Under [max > 0] an append
    to a buffer holding at most [max] entries succeeds and keeps the last
    [max] entries. *)
Theorem append_on_disabled_buffer_raises
  (json_loads : string -> result pyval) (epoch_millis : pyval -> result Z)
  (environ : option string) (self self0 : SizedLogBuffer) :
  max environ self = Ok (0, self0) ->
  buffer self = [] ->
  (forall item,
     append environ item self = Raise (IndexError "pop from an empty deque"))
  /\ (forall message entry,
        log_record json_loads epoch_millis message = Ok entry ->
        write json_loads epoch_millis environ message self
        = Raise (IndexError "pop from an empty deque"))
  /\ max None __init__ = Ok (0, __init__)
  /\ (forall environ' N item (b b0 : SizedLogBuffer),
        0 < N -> max environ' b = Ok (N, b0) ->
        Z.of_nat (List.length (buffer b)) <= N ->
        exists b',
          append environ' item b = Ok b'
          /\ buffer b' = lastn (Z.to_nat N) (buffer b ++ [item])).
Proof.
  intros Hmax Hb. repeat split.
  - intros item. unfold append. now apply locked_append_disabled with self0.
  - intros message entry He. unfold write. rewrite He. simpl.
    now apply locked_append_disabled with self0.
  - intros environ' N item b b0 HN Hm Hl.
    destruct (locked_append_ring environ' item b b0 N Hm HN Hl) as (b' & H1 & _ & H2).
    now exists b'.
Qed.

Lemma append_on_disabled_buffer_raises_witness :
  max None __init__ = Ok (0, __init__)
  /\ buffer __init__ = []
  /\ append None (PyStr "entry") __init__
     = Raise (IndexError "pop from an empty deque")
  /\ write Samples.sample_json_loads Samples.sample_epoch_millis None "line" __init__
     = Raise (IndexError "pop from an empty deque").
Proof.
  split; [reflexivity|]. split; [reflexivity|].
  destruct (append_on_disabled_buffer_raises
              Samples.sample_json_loads Samples.sample_epoch_millis
              None __init__ __init__ eq_refl eq_refl) as (Ha & Hw & _).
  split; [apply Ha|].
  apply (Hw "line"%string _ eq_refl).
Defined.

End LoggerFacts.

(** ** The OpenAI-compatibility adapter *)

Module OpenAIResponsesFacts.
Import Py OpenAIResponses.
#[local] Open Scope list_scope.

(** *** The graph check *)

Lemma node_type_untyped node :
  lacks_type_entry node = true -> node_type node = Ok PyNone.
Proof.
  destruct node as [| | | |xs|nd]; simpl; try discriminate.
  unfold node_type, get, dict_get. simpl.
  destruct (lookup "data" nd) as [[| | | | |dd]|]; try discriminate.
  - unfold has_key. simpl. destruct (lookup "type" dd); [discriminate|reflexivity].
  - reflexivity.
Qed.

Lemma any_node_untyped a b xs :
  forallb lacks_type_entry xs = true -> any_node_of_type a b xs = Ok false.
Proof.
  induction xs as [|node xs IH]; simpl; [reflexivity|].
  intros H. apply andb_prop in H as [Hn Hxs].
  rewrite (node_type_untyped node Hn). simpl. auto.
Qed.

Lemma has_component_missing a b flow_data :
  graph_entries_missing flow_data = true -> has_component a b flow_data = Ok false.
Proof.
  destruct flow_data as [d|]; [|reflexivity].
  unfold graph_entries_missing, has_component, has_key, getitem.
  destruct (truthy (PyDict d)); [|reflexivity]. simpl.
  destruct (lookup "nodes" d) as [[| | | |xs|]|]; try discriminate; [|reflexivity].
  intros H. simpl. now apply any_node_untyped.
Qed.

(** A scan that found no node of one kind looked at the type of every
    node, so a scan for another kind does not raise either. *)
Lemma any_node_scanned a b a' b' xs :
  any_node_of_type a b xs = Ok false ->
  exists found, any_node_of_type a' b' xs = Ok found.
Proof.
  induction xs as [|node xs IH]; simpl; [now exists false|].
  destruct (node_type node) as [t|e]; simpl; [|discriminate].
  destruct (in_literals t a b); [discriminate|].
  intros H. destruct (in_literals t a' b'); [now exists true|auto].
Qed.

Lemma has_component_scanned a b a' b' flow_data :
  has_component a b flow_data = Ok false ->
  exists found, has_component a' b' flow_data = Ok found.
Proof.
  destruct flow_data as [d|]; [|now exists false].
  unfold has_component.
  destruct (negb (truthy (PyDict d)) || negb (has_key "nodes" d)); [now exists false|].
  destruct (getitem (PyDict d) "nodes") as [nodes|]; simpl; [|discriminate].
  destruct (iter nodes) as [xs|]; simpl; [|discriminate].
  apply any_node_scanned.
Qed.

Lemma lacks_chat_components_true flow :
  has_chat_input (flow_data flow) = Ok false
  \/ has_chat_output (flow_data flow) = Ok false ->
  lacks_chat_components flow = Ok true.
Proof.
  unfold lacks_chat_components. intros [H | H].
  - now rewrite H.
  - destruct (has_component_scanned _ _ "ChatInput" "Chat Input" _ H) as [found Hf].
    fold (has_chat_input (flow_data flow)) in Hf. rewrite Hf, H. simpl.
    now destruct found.
Qed.

(** *** The endpoint, stage by stage *)

Section Endpoint.
Variable env : collaborators.

Lemma rejected_before_execution request current_user flow w :
  get_flow_by_id_or_endpoint_name env (model request) (user_id current_user)
  = Ok (Some flow) ->
  lacks_chat_components flow = Ok true ->
  openai_chat_completions env request current_user w
  = (Raise (bad_request
              "Flow must have both ChatInput and ChatOutput components for OpenAI compatibility"),
     w).
Proof.
  intros Hflow Hlacks.
  unfold openai_chat_completions, try_except, bind, lift.
  now rewrite Hflow, Hlacks.
Qed.

End Endpoint.

(** C9 as stated fails: the two checks are not total.  On a flow one of
    whose nodes has a null "data" they raise AttributeError, and the
    endpoint answers with HTTP 500, not with the 400 of its validation. *)
Lemma chat_checks_raise_on_null_data_counterexample :
  has_chat_input (flow_data Samples.flow_with_null_data)
  = Raise (PyException "AttributeError" "'NoneType' object has no attribute 'get'")
  /\ has_chat_output (flow_data Samples.flow_with_null_data)
     = Raise (PyException "AttributeError" "'NoneType' object has no attribute 'get'")
  /\ fst (openai_chat_completions
            (Samples.mocked Samples.flow_with_null_data
               (Ok (Samples.nested (PyStr "hi"))) [] None)
            (Samples.chat false Samples.conversation) Samples.user new_world)
     = Raise (HTTPException 500
                (model_dump
                   (create_openai_error
                      "Internal server error: 'NoneType' object has no attribute 'get'"))).
Proof. repeat split. Qed.

(** C9, as amended: for flow data that is [None], or a dictionary without
    "nodes", or whose "nodes" is a list of dictionaries each without a
    "data" entry or with a "data" dictionary without a "type" entry, both
    checks return [False] without raising, and the endpoint rejects a
    resolved flow with such data with its HTTP 400 validation error. *)
Theorem chat_checks_false_on_missing_entries (flow_data : option dict) :
  graph_entries_missing flow_data = true ->
  has_chat_input flow_data = Ok false
  /\ has_chat_output flow_data = Ok false
  /\ forall env request current_user flow w,
       get_flow_by_id_or_endpoint_name env (model request) (user_id current_user)
       = Ok (Some flow) ->
       OpenAIResponses.flow_data flow = flow_data ->
       openai_chat_completions env request current_user w
       = (Raise (bad_request
                   "Flow must have both ChatInput and ChatOutput components for OpenAI compatibility"),
          w).
Proof.
  intros H.
  assert (Hin : has_chat_input flow_data = Ok false)
    by now apply has_component_missing.
  repeat split; trivial.
  - now apply has_component_missing.
  - intros env request current_user flow w Hflow Hdata.
    apply rejected_before_execution with flow; trivial.
    apply lacks_chat_components_true. left. now rewrite Hdata.
Qed.

Lemma chat_checks_false_on_missing_entries_witness :
  graph_entries_missing (flow_data Samples.flow_without_node_data) = true
  /\ has_chat_input (flow_data Samples.flow_without_node_data) = Ok false
  /\ has_chat_output (flow_data Samples.flow_without_node_data) = Ok false.
Proof.
  split; [reflexivity|].
  destruct (chat_checks_false_on_missing_entries
              (flow_data Samples.flow_without_node_data) eq_refl) as (Hi & Ho & _).
  now split.
Defined.

(** *** The streaming generator *)

Section Streaming.
Variable env : collaborators.






(** What the loop sees when it is given the generator that the awaited
    call returns. *)
Lemma aiter_stream_generator flow request user chunks ending w :
  run_flow_generator env flow request user = (chunks, ending) ->
  aiter (AsyncGenerator (stream_generator env flow request user)) w
  = ((filter truthy chunks, ending),
     record_execution (GeneratorRun flow request user) w).
Proof. intros H. simpl. unfold stream_generator. now rewrite H. Qed.

(** What the loop sees when it is given the call itself: the call is a
    coroutine, which cannot be iterated. *)
Lemma aiter_unawaited_call flow message user session tweaks stream w :
  aiter (run_flow_for_openai_responses env flow message user session tweaks stream) w
  = (([], Some (TypeError
                  "'async for' requires an object with __aiter__ method, got coroutine")),
     w).
Proof. reflexivity. Qed.

End Streaming.







(** *** The non-streaming path *)

Lemma last_cons {A} (ms : list A) :
  forall m d, last (m :: ms) d = last ms m.
Proof.
  induction ms as [|a ms IH]; intros m d; [reflexivity|].
  change (last (m :: a :: ms) d) with (last (a :: ms) d).
  now rewrite (IH a d), (IH a m).
Qed.

Lemma last_of_snoc {A} (m : A) ms earlier final :
  m :: ms = earlier ++ [final] -> last ms m = final.
Proof.
  intros H. rewrite <- (last_cons ms m final), H. apply last_last.
Qed.

Lemma snoc_of_last {A} (m : A) ms :
  m :: ms = removelast (m :: ms) ++ [last ms m].
Proof.
  rewrite <- (last_cons ms m m). apply app_removelast_last. discriminate.
Qed.


Section NonStreaming.
Variable env : collaborators.

(** Past the lookup and the two checks, the endpoint runs [respond] on the
    content of the last message. *)
Lemma endpoint_after_validation request current_user flow earlier final w :
  get_flow_by_id_or_endpoint_name env (model request) (user_id current_user)
  = Ok (Some flow) ->
  lacks_chat_components flow = Ok false ->
  messages request = earlier ++ [final] ->
  openai_chat_completions env request current_user w
  = try_except
      (do session <- session_id_or_uuid env request;
       do _ <- add_task {| payload_flow_id := flow_id flow;
                           payload_flow_name := flow_name flow;
                           payload_user_id := user_id current_user |};
       respond env request current_user flow (content final) session)
      (on_error env) w.
Proof.
  intros Hflow Hvalid Hmessages.
  unfold openai_chat_completions, try_except, bind at 1 2, lift.
  rewrite Hflow, Hvalid.
  destruct (messages request) as [|m ms] eqn:E.
  - now destruct earlier.
  - now rewrite (last_of_snoc m ms earlier final Hmessages).
Qed.

Lemma session_id_or_uuid_returns request w :
  exists session,
    session_id_or_uuid env request w
    = (Ok session,
       match session_id request with
       | Some s => if truthy (PyStr s) then w else snd (draw_uuid env w)
       | None => snd (draw_uuid env w)
       end)
    /\ (session_id request = None -> session = uuid4 env (uuids_drawn w)).
Proof.
  unfold session_id_or_uuid.
  destruct (session_id request) as [s|].
  - destruct (truthy (PyStr s)).
    + exists s. now split.
    + exists (uuid4 env (uuids_drawn w)). now split.
  - exists (uuid4 env (uuids_drawn w)). now split.
Qed.

(** The request the run call builds. *)
Lemma await_simple_run flow message user session tweaks w :
  await (run_flow_for_openai_responses env flow message user session tweaks false) w
  = match simple_run_flow env flow
            {| input_value := message; input_type := "chat"; output_type := "chat";
               request_tweaks := tweaks_or_empty tweaks;
               request_session_id := session |} user with
    | Ok result =>
        (Ok (Value result),
         record_execution
           (SimpleRun flow
              {| input_value := message; input_type := "chat"; output_type := "chat";
                 request_tweaks := tweaks_or_empty tweaks;
                 request_session_id := session |} user) w)
    | Raise e =>
        (Raise (if is_Exception e then HTTPException 500 (PyStr (str env e)) else e),
         (if is_Exception e
          then record_log ("Error running flow for OpenAI responses: " ++ str env e)
          else fun w => w)
           (record_execution
              (SimpleRun flow
                 {| input_value := message; input_type := "chat"; output_type := "chat";
                    request_tweaks := tweaks_or_empty tweaks;
                    request_session_id := session |} user) w))
    end.
Proof.
  simpl. unfold try_except, bind, call_simple_run_flow.
  destruct (simple_run_flow env flow _ user) as [result|e]; [reflexivity|].
  now destruct (is_Exception e).
Qed.

Lemma await_streaming_run flow message user session tweaks w :
  await (run_flow_for_openai_responses env flow message user session tweaks true) w
  = (Ok (AsyncGenerator
           (stream_generator env flow
              {| input_value := message; input_type := "chat"; output_type := "chat";
                 request_tweaks := tweaks_or_empty tweaks;
                 request_session_id := session |} user)),
     w).
Proof. reflexivity. Qed.



End NonStreaming.



(** C6: whenever the endpoint returns a (non-streaming) response, its
    usage counts are the numbers of whitespace-separated words of the
    content of the last message, which is the input forwarded to the flow,
    and of the content of the response's choice, and [total_tokens] is
    their sum; for "a b c" and "x y" they are 3, 2 and 5. *)
Theorem usage_counts_whitespace_words
  (env : collaborators) (request : OpenAIResponsesRequest)
  (current_user : UserRead) (w w' : world) (r : OpenAIResponsesResponse) :
  openai_chat_completions env request current_user w = (Ok (JSONResponse r), w') ->
  (exists earlier final text,
     messages request = earlier ++ [final]
     /\ response_choices r = [completion_choice (PyStr text)]
     /\ response_usage r
        = Some [("prompt_tokens"%string,
                 PyInt (Z.of_nat (List.length (str_split (content final)))));
                ("completion_tokens"%string,
                 PyInt (Z.of_nat (List.length (str_split text))));
                ("total_tokens"%string,
                 PyInt (Z.of_nat (List.length (str_split (content final)))
                        + Z.of_nat (List.length (str_split text))))])
  /\ usage "a b c" (PyStr "x y")
     = Ok [("prompt_tokens"%string, PyInt 3);
           ("completion_tokens"%string, PyInt 2);
           ("total_tokens"%string, PyInt 5)].
Proof.
  intros H. split; [|reflexivity].
  unfold openai_chat_completions, try_except, bind at 1, lift at 1 in H.
  destruct (get_flow_by_id_or_endpoint_name env (model request) (user_id current_user))
    as [[flow|]|e]; [| discriminate H | now destruct e].
  unfold bind at 1, lift at 1 in H.
  destruct (lacks_chat_components flow) as [[|]|e];
    [discriminate H | | now destruct e].
  destruct (messages request) as [|m ms] eqn:Emessages; [discriminate H|].
  destruct (session_id_or_uuid_returns env request w) as (session & Hsession & _).
  unfold bind at 1 in H. rewrite Hsession in H.
  unfold bind at 1, add_task, respond in H.
  destruct (stream request); [discriminate H|].
  unfold bind at 1 in H. rewrite await_simple_run in H.
  destruct (simple_run_flow env flow _ (user_id current_user)) as [result|e].
  - unfold bind at 1, lift at 1 in H.
    destruct (extract_response_content (Value result)) as [response_content|e];
      [|now destruct e].
    destruct response_content as [| | |text| |]; try discriminate H.
    cbn in H. injection H as <- _.
    exists (removelast (m :: ms)), (last ms m), text.
    split; [apply snoc_of_last|]. split; reflexivity.
  - destruct (is_Exception e); [discriminate H|]. now destruct e.
Qed.

Lemma usage_counts_whitespace_words_witness :
  exists r w',
    openai_chat_completions
      (Samples.mocked Samples.chat_flow (Ok (Samples.nested (PyStr "x y"))) [] None)
      (Samples.chat false Samples.conversation) Samples.user new_world
    = (Ok (JSONResponse r), w')
    /\ response_usage r
       = Some [("prompt_tokens"%string, PyInt 3);
               ("completion_tokens"%string, PyInt 2);
               ("total_tokens"%string, PyInt 5)]
    /\ exists earlier final text,
         Samples.conversation = earlier ++ [final]
         /\ response_choices r = [completion_choice (PyStr text)]
         /\ response_usage r
            = Some [("prompt_tokens"%string,
                     PyInt (Z.of_nat (List.length (str_split (content final)))));
                    ("completion_tokens"%string,
                     PyInt (Z.of_nat (List.length (str_split text))));
                    ("total_tokens"%string,
                     PyInt (Z.of_nat (List.length (str_split (content final)))
                            + Z.of_nat (List.length (str_split text))))].
Proof.
  eexists; eexists. split; [reflexivity|]. split; [reflexivity|].
  apply (usage_counts_whitespace_words
           (Samples.mocked Samples.chat_flow (Ok (Samples.nested (PyStr "x y"))) [] None)
           (Samples.chat false Samples.conversation) Samples.user new_world _ _ eq_refl).
Defined.

(** *** What is forwarded to the run *)

Section Forwarding.
Variable env : collaborators.

(** [request.session_id or str(uuid.uuid4())], as a value. *)
Lemma session_id_or_uuid_value request w :
  fst (session_id_or_uuid env request w)
  = Ok (match session_id request with
        | Some s => if truthy (PyStr s) then s else uuid4 env (uuids_drawn w)
        | None => uuid4 env (uuids_drawn w)
        end).
Proof.
  unfold session_id_or_uuid.
  destruct (session_id request) as [s|]; [|reflexivity].
  now destruct (truthy (PyStr s)).
Qed.

(** The world after a non-streaming call. *)
Lemma non_streaming_world request current_user flow earlier final session w :
  get_flow_by_id_or_endpoint_name env (model request) (user_id current_user)
  = Ok (Some flow) ->
  lacks_chat_components flow = Ok false ->
  messages request = earlier ++ [final] ->
  stream request = false ->
  fst (session_id_or_uuid env request w) = Ok session ->
  executions (snd (openai_chat_completions env request current_user w))
  = executions w
    ++ [SimpleRun flow
          {| input_value := content final; input_type := "chat"; output_type := "chat";
             request_tweaks := tweaks_or_empty (tweaks request);
             request_session_id := Some session |}
          (user_id current_user)].
Proof.
  intros Hflow Hvalid Hmessages Hstream Hsession.
  rewrite (endpoint_after_validation env request current_user flow earlier final w
             Hflow Hvalid Hmessages).
  destruct (session_id_or_uuid_returns env request w) as (session' & Hs & _).
  rewrite Hs in Hsession. injection Hsession as ->.
  unfold try_except, bind at 1. rewrite Hs.
  unfold bind at 1, add_task, respond. rewrite Hstream.
  unfold bind at 1. rewrite await_simple_run.
  destruct (session_id request) as [s|]; [destruct (truthy (PyStr s))|];
    (destruct (simple_run_flow env flow _ (user_id current_user)) as [result|e];
     [ unfold bind at 1, lift at 1;
       destruct (extract_response_content (Value result)) as [[| | |text| |]|[| |]];
       reflexivity
     | destruct e; reflexivity ]).
Qed.


Lemma streaming_response request current_user flow earlier final session w :
  get_flow_by_id_or_endpoint_name env (model request) (user_id current_user)
  = Ok (Some flow) ->
  lacks_chat_components flow = Ok false ->
  messages request = earlier ++ [final] ->
  stream request = true ->
  fst (session_id_or_uuid env request w) = Ok session ->
  exists w',
    openai_chat_completions env request current_user w
    = (Ok (StreamingResponse
             (generate_stream env request
                (run_flow_for_openai_responses env flow (content final)
                   (user_id current_user) (Some session) (tweaks request) true))
             "text/plain" streaming_headers),
       w')
    /\ executions w' = executions w.
Proof.
  intros Hflow Hvalid Hmessages Hstream Hsession.
  rewrite (endpoint_after_validation env request current_user flow earlier final w
             Hflow Hvalid Hmessages).
  destruct (session_id_or_uuid_returns env request w) as (session' & Hs & _).
  rewrite Hs in Hsession. injection Hsession as ->.
  unfold try_except, bind at 1. rewrite Hs.
  unfold bind at 1, add_task, respond. rewrite Hstream.
  eexists. split; [reflexivity|].
  destruct (session_id request) as [s|]; [destruct (truthy (PyStr s))|]; reflexivity.
Qed.

End Forwarding.

(** *** The streaming endpoint as written *)

(** The loop of [generate_stream] is given the run call itself, not what
    awaiting it returns, so it raises before its first round: a streaming
    response carries the one error frame of that TypeError, and no flow
    execution is started. *)
Lemma streaming_call_is_never_iterated
  (env : collaborators) (request : OpenAIResponsesRequest)
  (current_user : UserRead) (flow : FlowRead)
  (earlier : list OpenAIMessage) (final : OpenAIMessage) (w : world) :
  get_flow_by_id_or_endpoint_name env (model request) (user_id current_user)
  = Ok (Some flow) ->
  lacks_chat_components flow = Ok false ->
  messages request = earlier ++ [final] ->
  stream request = true ->
  exists r w',
    openai_chat_completions env request current_user w = (Ok r, w')
    /\ fst (emitted r w')
       = ([Data (ErrorResponse
                   (create_openai_error
                      "'async for' requires an object with __aiter__ method, got coroutine"))],
          None)
    /\ executions (snd (emitted r w')) = executions w.
Proof.
  intros Hflow Hvalid Hmessages Hstream.
  destruct (streaming_response env request current_user flow earlier final _ w
              Hflow Hvalid Hmessages Hstream (session_id_or_uuid_value env request w))
    as (w' & Hresponse & Hexecutions).
  eexists; exists w'. split; [exact Hresponse|].
  split; [reflexivity | exact Hexecutions].
Qed.

(** C4, on the code as written: with [stream=true] and a flow that yields
    "Hel" and "lo", the endpoint's response body is one error frame (the
    TypeError of iterating the un-awaited run call) and the flow is never
    executed; the two content frames, the stop frame and the terminator
    are what the same loop emits over the generator that awaiting the call
    returns. *)
Example hel_lo_stream_is_one_error_frame :
  run_flow_generator Samples.hel_lo Samples.chat_flow Samples.run_request "u-1"
  = ([PyStr "Hel"; PyStr "lo"], None)
  /\ (exists r w',
        openai_chat_completions Samples.hel_lo (Samples.chat true Samples.conversation)
          Samples.user new_world
        = (Ok r, w')
        /\ fst (emitted r w')
           = ([Data (ErrorResponse
                       (create_openai_error
                          "'async for' requires an object with __aiter__ method, got coroutine"))],
              None)
        /\ executions (snd (emitted r w')) = [])
  /\ fst (generate_stream Samples.hel_lo (Samples.chat true Samples.conversation)
            (Samples.awaited_run Samples.hel_lo) new_world)
     = ([Data (StreamChunk (stream_chunk "a" 1700000000 "3f2a"
                              (content_choice (PyStr "Hel"))));
         Data (StreamChunk (stream_chunk "b" 1700000001 "3f2a"
                              (content_choice (PyStr "lo"))));
         Data (StreamChunk (stream_chunk "c" 1700000002 "3f2a" stop_choice));
         Done],
        None).
Proof.
  split; [reflexivity|]. split; [|reflexivity].
  eexists; eexists. split; [reflexivity|]. split; reflexivity.
Qed.

End OpenAIResponsesFacts.

(** * Further properties *)

(** ** The rest of the sized log buffer *)

Module LoggerMoreFacts.
Import Py Logger LoggerFacts.
#[local] Open Scope Z_scope.
#[local] Open Scope list_scope.

(** Reading [max] never touches the deque, and what it leaves stored makes
    every later reading in the same environment return the same. *)
Lemma max_spec environ self m self0 :
  max environ self = Ok (m, self0) ->
  buffer self0 = buffer self
  /\ forall l,
       max environ {| buffer := l; _max := _max self0 |}
       = Ok (m, {| buffer := l; _max := _max self0 |}).
Proof.
  intros H. unfold max in H.
  destruct (_max self =? 0) eqn:E.
  - destruct (isdigit _) eqn:Ed.
    + destruct (int _) as [n|e] eqn:Ei; simpl in H; [|discriminate].
      injection H as <- <-. split; [reflexivity|]. intros l.
      unfold max. simpl. rewrite Ed, Ei. simpl.
      destruct (n =? 0); reflexivity.
    + injection H as <- <-. split; [reflexivity|]. intros l.
      unfold max. simpl. now rewrite E, Ed.
  - injection H as <- <-. split; [reflexivity|]. intros l.
    unfold max. simpl. now rewrite E.
Qed.

(** The body of [append], unfolded once [max] has been read. *)
Lemma locked_append_spec environ item self m self0 :
  max environ self = Ok (m, self0) ->
  locked_append environ item self
  = if Z.of_nat (List.length (buffer self)) >=? m
    then match buffer self with
         | [] => Raise (IndexError "pop from an empty deque")
         | _ :: rest => Ok {| buffer := rest ++ [item]; _max := _max self0 |}
         end
    else Ok {| buffer := buffer self ++ [item]; _max := _max self0 |}.
Proof.
  intros H. destruct (max_spec _ _ _ _ H) as [Hb _].
  unfold locked_append. rewrite H. simpl. rewrite Hb.
  destruct (_ >=? m); unfold deque_popleft, deque_append; rewrite ?Hb; simpl.
  - destruct (buffer self); simpl; rewrite ?Hb; reflexivity.
  - rewrite ?Hb. reflexivity.
Qed.

Lemma locked_appendleft_spec environ item self m self0 :
  max environ self = Ok (m, self0) ->
  locked_appendleft environ item self
  = if Z.of_nat (List.length (buffer self)) >=? m
    then match buffer self with
         | [] => Raise (IndexError "pop from an empty deque")
         | x :: rest =>
             Ok {| buffer := item :: removelast (x :: rest); _max := _max self0 |}
         end
    else Ok {| buffer := item :: buffer self; _max := _max self0 |}.
Proof.
  intros H. destruct (max_spec _ _ _ _ H) as [Hb _].
  unfold locked_appendleft. rewrite H. simpl. rewrite Hb.
  destruct (_ >=? m); unfold deque_pop, deque_appendleft; rewrite ?Hb; simpl.
  - destruct (buffer self); simpl; rewrite ?Hb; reflexivity.
  - rewrite ?Hb. reflexivity.
Qed.

Lemma firstn_cons_full {A} n (item x : A) rest :
  List.length (x :: rest) = n ->
  item :: removelast (x :: rest) = firstn n (item :: x :: rest).
Proof.
  intros H. rewrite removelast_firstn_len, <- H. reflexivity.
Qed.

Lemma firstn_short {A} n (l : list A) : (List.length l <= n)%nat -> firstn n l = l.
Proof. apply firstn_all2. Qed.

Lemma firstn_app_firstn {A} n (l r : list A) :
  firstn n (l ++ firstn n r) = firstn n (l ++ r).
Proof.
  rewrite !firstn_app, firstn_firstn. do 2 f_equal. lia.
Qed.

(** One [appendleft] on a buffer that holds at most its capacity [N > 0]. *)
Lemma locked_appendleft_ring environ item self self0 N :
  max environ self = Ok (N, self0) -> 0 < N ->
  Z.of_nat (List.length (buffer self)) <= N ->
  exists self',
    locked_appendleft environ item self = Ok self'
    /\ _max self' = N
    /\ buffer self' = firstn (Z.to_nat N) (item :: buffer self).
Proof.
  intros Hmax HN Hlen.
  destruct (max_positive _ _ _ _ Hmax) as [HM _]; [lia|].
  rewrite (locked_appendleft_spec _ item _ _ _ Hmax).
  destruct (_ >=? N) eqn:E.
  - destruct (buffer self) as [|x rest] eqn:Eb; [simpl in E; lia|].
    eexists. split; [reflexivity|]. split; [exact HM|]. simpl buffer.
    apply firstn_cons_full. apply Z.geb_le in E. lia.
  - eexists. split; [reflexivity|]. split; [exact HM|]. simpl buffer.
    symmetry. apply firstn_short. simpl.
    rewrite Z.geb_leb in E. apply Z.leb_gt in E. lia.
Qed.

(** The state a capacity of [N] keeps: [max] reads [N] and the deque holds
    at most [N] entries. *)
Lemma ring_state_after environ N self' l :
  0 < N -> _max self' = N -> buffer self' = l ->
  (List.length l <= Z.to_nat N)%nat ->
  max environ self' = Ok (N, self')
  /\ Z.of_nat (List.length (buffer self')) <= N.
Proof.
  intros HN HM HB Hl. split.
  - rewrite <- HM. apply max_stored. rewrite HM. lia.
  - rewrite HB. lia.
Qed.

Lemma extend_ring environ N : 0 < N ->
  forall items self self0,
    max environ self = Ok (N, self0) ->
    Z.of_nat (List.length (buffer self)) <= N ->
    exists self' self0',
      extend environ items self = Ok self'
      /\ max environ self' = Ok (N, self0')
      /\ buffer self' = lastn (Z.to_nat N) (buffer self ++ items).
Proof.
  intros HN. induction items as [|item items IH]; intros self self0 Hmax Hlen.
  - exists self, self0. repeat split; trivial.
    rewrite app_nil_r. symmetry. apply lastn_short. lia.
  - destruct (locked_append_ring environ item self self0 N Hmax HN Hlen)
      as (self1 & Hstep & HM & HB).
    destruct (ring_state_after environ N self1 _ HN HM HB
                (length_lastn _ _)) as [Hmax1 Hlen1].
    destruct (IH self1 self1 Hmax1 Hlen1) as (self2 & self02 & Hrun & Hmax2 & HB2).
    exists self2, self02. simpl. rewrite Hstep. simpl.
    repeat split; trivial.
    rewrite HB2, HB, lastn_app_lastn, <- app_assoc. reflexivity.
Qed.

Lemma extendleft_ring environ N : 0 < N ->
  forall items self self0,
    max environ self = Ok (N, self0) ->
    Z.of_nat (List.length (buffer self)) <= N ->
    exists self' self0',
      extendleft environ items self = Ok self'
      /\ max environ self' = Ok (N, self0')
      /\ buffer self' = firstn (Z.to_nat N) (rev items ++ buffer self).
Proof.
  intros HN. induction items as [|item items IH]; intros self self0 Hmax Hlen.
  - exists self, self0. repeat split; trivial.
    simpl. symmetry. apply firstn_short. lia.
  - destruct (locked_appendleft_ring environ item self self0 N Hmax HN Hlen)
      as (self1 & Hstep & HM & HB).
    assert (Hl : (List.length (firstn (Z.to_nat N) (item :: buffer self))
                  <= Z.to_nat N)%nat) by (rewrite length_firstn; lia).
    destruct (ring_state_after environ N self1 _ HN HM HB Hl)
      as [Hmax1 Hlen1].
    destruct (IH self1 self1 Hmax1 Hlen1) as (self2 & self02 & Hrun & Hmax2 & HB2).
    exists self2, self02. simpl extendleft. rewrite Hstep. simpl.
    repeat split; trivial.
    rewrite HB2, HB, firstn_app_firstn. simpl rev. now rewrite <- app_assoc.
Qed.

(** What [max] reads depends on the stored [_max] and the environment, not
    on the deque. *)
Lemma max_any_buffer environ self m self0 :
  max environ self = Ok (m, self0) ->
  forall l,
    max environ {| buffer := l; _max := _max self |}
    = Ok (m, {| buffer := l; _max := _max self0 |}).
Proof.
  intros H l. unfold max in *. simpl.
  destruct (_max self =? 0).
  - destruct (isdigit _).
    + destruct (int _) as [n|e]; simpl in *; [|discriminate].
      now injection H as <- <-.
    + now injection H as <- <-.
  - now injection H as <- <-.
Qed.

Lemma locked_append_ends_with environ item self self' :
  locked_append environ item self = Ok self' ->
  exists l, buffer self' = l ++ [item].
Proof.
  unfold locked_append. destruct (max environ self) as [[m s0]|e]; simpl; [|discriminate].
  destruct (_ >=? m).
  - unfold deque_popleft. destruct (buffer s0) as [|x rest]; simpl; [discriminate|].
    intros H. injection H as <-. now exists rest.
  - simpl. intros H. injection H as <-. now exists (buffer s0).
Qed.

Lemma locked_appendleft_starts_with environ item self self' :
  locked_appendleft environ item self = Ok self' ->
  exists l, buffer self' = item :: l.
Proof.
  unfold locked_appendleft.
  destruct (max environ self) as [[m s0]|e]; simpl; [|discriminate].
  destruct (_ >=? m).
  - unfold deque_pop. destruct (buffer s0) as [|x rest]; simpl; [discriminate|].
    intros H. injection H as <-. now eexists.
  - simpl. intros H. injection H as <-. now exists (buffer s0).
Qed.

Lemma overfull_extend environ m n :
  (0 < n)%nat -> m <= Z.of_nat n ->
  forall items self self0,
    max environ self = Ok (m, self0) ->
    List.length (buffer self) = n ->
    exists self',
      extend environ items self = Ok self'
      /\ buffer self' = lastn n (buffer self ++ items).
Proof.
  intros Hn Hm. induction items as [|item items IH]; intros self self0 Hmax Hlen.
  - exists self. split; [reflexivity|]. rewrite app_nil_r.
    symmetry. apply lastn_short. lia.
  - simpl. rewrite (locked_append_spec _ item _ _ _ Hmax), Hlen.
    replace (Z.of_nat n >=? m) with true by (symmetry; apply Z.geb_le; lia).
    destruct (buffer self) as [|x rest] eqn:Eb; [simpl in Hlen; lia|].
    simpl rbind.
    destruct (max_spec _ _ _ _ Hmax) as [_ Hnext].
    destruct (IH _ _ (Hnext (rest ++ [item]))) as (self' & Hrun & HB).
    + simpl. rewrite length_app. simpl in *. lia.
    + exists self'. split; [exact Hrun|]. rewrite HB. simpl buffer.
      rewrite <- (lastn_snoc_full n item x rest Hlen), lastn_app_lastn.
      now rewrite <- app_assoc.
Qed.

Lemma int_from_nonnegative s :
  forall acc n, 0 <= acc -> int_from acc s = Some n -> 0 <= n.
Proof.
  induction s as [|c s IH]; intros acc n Hacc; cbn [int_from].
  - intros H. injection H as <-. exact Hacc.
  - unfold decimal_value. cbv zeta.
    destruct ((48 <=? nat_of_ascii c)%nat && (nat_of_ascii c <=? 57)%nat);
      [|discriminate].
    apply IH. pose proof (Nat2Z.is_nonneg (nat_of_ascii c - 48)). lia.
Qed.

Lemma int_from_decimal s :
  all_chars (fun c => match decimal_value c with Some _ => true | None => false end) s
  = true ->
  forall acc, exists n, int_from acc s = Some n.
Proof.
  induction s as [|c s IH]; simpl; intros H acc; [now exists acc|].
  destruct (decimal_value c) as [d|]; [|discriminate]. apply IH. exact H.
Qed.

Lemma int_from_not_decimal s :
  all_chars (fun c => match decimal_value c with Some _ => true | None => false end) s
  = false ->
  forall acc, int_from acc s = None.
Proof.
  induction s as [|c s IH]; simpl; intros H acc; [discriminate|].
  destruct (decimal_value c) as [d|]; [|reflexivity]. apply IH. exact H.
Qed.

Lemma decimal_is_digit s : decimal_string s = true -> isdigit s = true.
Proof.
  unfold decimal_string, isdigit. intros H. apply andb_prop in H as [Hne Hall].
  rewrite Hne. simpl. clear Hne.
  induction s as [|c s IH]; [reflexivity|]. simpl in *.
  apply andb_prop in Hall as [Hc Hs]. rewrite (IH Hs), andb_true_r.
  unfold decimal_value in Hc. unfold isdigit_char.
  destruct ((48 <=? nat_of_ascii c)%nat && (nat_of_ascii c <=? 57)%nat);
    [reflexivity|discriminate].
Qed.

(** X1: on a buffer whose capacity [max] is [N >= 1] and that holds at
    most [N] entries, [extend] never raises and leaves the last [N] of the
    entries held and given, in order; given [N] items or more it leaves
    exactly the last [N] items. *)
Theorem extend_keeps_most_recent
  (environ : option string) (N : Z) (self self0 : SizedLogBuffer)
  (items : list pyval) :
  0 < N ->
  max environ self = Ok (N, self0) ->
  Z.of_nat (List.length (buffer self)) <= N ->
  exists self',
    extend environ items self = Ok self'
    /\ read self' = lastn (Z.to_nat N) (read self ++ items)
    /\ (N <= Z.of_nat (List.length items) -> read self' = lastn (Z.to_nat N) items).
Proof.
  intros HN Hmax Hlen.
  destruct (extend_ring environ N HN items self self0 Hmax Hlen)
    as (self' & _ & Hrun & _ & HB).
  exists self'. unfold read. repeat split; trivial.
  intros Hmany. rewrite HB. apply lastn_app_long. lia.
Qed.

Lemma extend_keeps_most_recent_witness :
  exists self',
    extend (Some "2"%string) [PyInt 1; PyInt 2; PyInt 3] __init__ = Ok self'
    /\ read self' = [PyInt 2; PyInt 3].
Proof.
  destruct (extend_keeps_most_recent (Some "2"%string) 2 __init__ (set_max 2 __init__)
              [PyInt 1; PyInt 2; PyInt 3] ltac:(lia) eq_refl ltac:(simpl; lia))
    as (self' & Hrun & _ & Hlast).
  exists self'. split; [exact Hrun|]. apply Hlast. simpl. lia.
Defined.

(** X2: [extendleft] mirrors [extend]: under the same conditions it leaves
    the first [N] entries of the items in reverse order followed by the
    entries held, so it evicts at the right end. *)
Theorem extendleft_keeps_leftmost
  (environ : option string) (N : Z) (self self0 : SizedLogBuffer)
  (items : list pyval) :
  0 < N ->
  max environ self = Ok (N, self0) ->
  Z.of_nat (List.length (buffer self)) <= N ->
  exists self',
    extendleft environ items self = Ok self'
    /\ read self' = firstn (Z.to_nat N) (rev items ++ read self).
Proof.
  intros HN Hmax Hlen.
  destruct (extendleft_ring environ N HN items self self0 Hmax Hlen)
    as (self' & _ & Hrun & _ & HB).
  now exists self'.
Qed.

Lemma extendleft_keeps_leftmost_witness :
  exists self',
    extendleft (Some "2"%string) [PyInt 1; PyInt 2; PyInt 3] __init__ = Ok self'
    /\ read self' = firstn 2 ([PyInt 3; PyInt 2; PyInt 1] ++ []).
Proof.
  apply (extendleft_keeps_leftmost (Some "2"%string) 2 __init__ (set_max 2 __init__)
           [PyInt 1; PyInt 2; PyInt 3]).
  - lia.
  - reflexivity.
  - simpl. lia.
Defined.

Lemma length_removelast_le {A} (l : list A) :
  (List.length (removelast l) <= List.length l)%nat.
Proof.
  rewrite removelast_firstn_len, length_firstn. lia.
Qed.

Section Invariant.
Variable json_loads : string -> result pyval.
Variable epoch_millis : pyval -> result Z.
Variable environ : option string.
Variable N : Z.
Hypothesis N_positive : 0 < N.

(** [max] reads [N] and the deque holds at most [N] entries. *)
#[local] Abbreviation within_capacity self :=
  ((exists self0, max environ self = Ok (N, self0))
   /\ Z.of_nat (List.length (buffer self)) <= N).

Lemma shrunk_within_capacity self l :
  within_capacity self ->
  (List.length l <= List.length (buffer self))%nat ->
  within_capacity {| buffer := l; _max := _max self |}.
Proof.
  intros [[self0 Hmax] Hlen] Hl. split.
  - eexists. apply (max_any_buffer _ _ _ _ Hmax).
  - simpl. lia.
Qed.

Lemma operate_within_capacity op self self' :
  within_capacity self ->
  operate json_loads epoch_millis environ op self = Ok self' ->
  within_capacity self'.
Proof.
  intros [[self0 Hmax] Hlen] H.
  destruct op as [item|item|items|items|message| | |]; simpl in H.
  - destruct (locked_append_ring environ item self self0 N Hmax N_positive Hlen)
      as (s1 & Hs & HM & HB).
    unfold append in H. rewrite Hs in H. injection H as <-.
    destruct (ring_state_after environ N s1 _ N_positive HM HB (length_lastn _ _)).
    split; [now exists s1 | assumption].
  - destruct (locked_appendleft_ring environ item self self0 N Hmax N_positive Hlen)
      as (s1 & Hs & HM & HB).
    unfold appendleft in H. rewrite Hs in H. injection H as <-.
    assert (Hl : (List.length (firstn (Z.to_nat N) (item :: buffer self))
                  <= Z.to_nat N)%nat) by (rewrite length_firstn; lia).
    destruct (ring_state_after environ N s1 _ N_positive HM HB Hl).
    split; [now exists s1 | assumption].
  - destruct (extend_ring environ N N_positive items self self0 Hmax Hlen)
      as (s1 & s10 & Hs & Hmax1 & HB).
    rewrite Hs in H. injection H as <-. split; [now exists s10|].
    rewrite HB. pose proof (length_lastn (Z.to_nat N) (buffer self ++ items)). lia.
  - destruct (extendleft_ring environ N N_positive items self self0 Hmax Hlen)
      as (s1 & s10 & Hs & Hmax1 & HB).
    rewrite Hs in H. injection H as <-. split; [now exists s10|].
    rewrite HB, length_firstn. lia.
  - unfold write in H.
    destruct (log_record json_loads epoch_millis message) as [entry|e];
      simpl in H; [|discriminate].
    destruct (locked_append_ring environ entry self self0 N Hmax N_positive Hlen)
      as (s1 & Hs & HM & HB).
    rewrite Hs in H. injection H as <-.
    destruct (ring_state_after environ N s1 _ N_positive HM HB (length_lastn _ _)).
    split; [now exists s1 | assumption].
  - unfold pop, deque_pop in H.
    destruct (buffer self) as [|x rest] eqn:Eb; simpl in H; [discriminate|].
    injection H as <-. apply shrunk_within_capacity.
    + split; [now exists self0 | now rewrite Eb].
    + rewrite Eb. apply (length_removelast_le (x :: rest)).
  - unfold popleft in H.
    destruct (buffer self) as [|x rest] eqn:Eb; simpl in H; [discriminate|].
    injection H as <-. apply shrunk_within_capacity.
    + split; [now exists self0 | now rewrite Eb].
    + rewrite Eb. simpl. lia.
  - injection H as <-. apply shrunk_within_capacity.
    + split; [now exists self0 | exact Hlen].
    + simpl. lia.
Qed.

Lemma operate_all_within_capacity ops :
  forall self self',
    within_capacity self ->
    operate_all json_loads epoch_millis environ ops self = Ok self' ->
    within_capacity self'.
Proof.
  induction ops as [|op ops IH]; intros self self' Hin H; simpl in H.
  - now injection H as <-.
  - destruct (operate json_loads epoch_millis environ op self) as [s1|e] eqn:E;
      simpl in H; [|discriminate].
    apply (IH s1 self'); [|exact H].
    now apply operate_within_capacity with op self.
Qed.

End Invariant.

(** X3: the capacity is an invariant of the whole interface: on a buffer
    whose capacity [max] is [N >= 1] and that holds at most [N] entries, no
    sequence of [append], [appendleft], [extend], [extendleft], [write],
    [pop], [popleft] and [clear] calls that all return leaves more than
    [N] entries, and [max] still reads [N] afterwards. *)
Theorem capacity_is_never_exceeded
  (json_loads : string -> result pyval) (epoch_millis : pyval -> result Z)
  (environ : option string) (N : Z) (ops : list operation)
  (self self0 self' : SizedLogBuffer) :
  0 < N ->
  max environ self = Ok (N, self0) ->
  __len__ self <= N ->
  operate_all json_loads epoch_millis environ ops self = Ok self' ->
  __len__ self' <= N
  /\ exists self0', max_size environ self' = Ok (N, self0').
Proof.
  intros HN Hmax Hlen Hrun.
  destruct (operate_all_within_capacity json_loads epoch_millis environ N HN ops
              self self') as [Hmax' Hlen']; trivial.
  - split; [now exists self0 | exact Hlen].
  - now split.
Qed.

Lemma capacity_is_never_exceeded_witness :
  exists self',
    operate_all Samples.sample_json_loads Samples.sample_epoch_millis (Some "2"%string)
      [DoExtend [PyInt 1; PyInt 2; PyInt 3]; DoAppendLeft (PyInt 0); DoPop;
       DoWrite "line"; DoExtendLeft [PyInt 7; PyInt 8]]
      __init__
    = Ok self'
    /\ __len__ self' <= 2.
Proof.
  eexists. split; [reflexivity|].
  apply (capacity_is_never_exceeded
           Samples.sample_json_loads Samples.sample_epoch_millis (Some "2"%string) 2
           [DoExtend [PyInt 1; PyInt 2; PyInt 3]; DoAppendLeft (PyInt 0); DoPop;
            DoWrite "line"; DoExtendLeft [PyInt 7; PyInt 8]]
           __init__ (set_max 2 __init__) _ ltac:(lia) eq_refl
           ltac:(unfold __len__; simpl; lia) eq_refl).
Defined.

(** X4: a buffer that already holds its capacity or more (the capacity was
    lowered with [set_log_buffer_size], or is zero or negative) is never
    trimmed: every append drops one entry and adds one, so [extend] keeps
    the number of entries and leaves that many of the latest; on an empty
    deque the first append raises IndexError. *)
Theorem overfull_buffer_keeps_its_length
  (environ : option string) (m : Z) (self self0 : SizedLogBuffer) :
  max environ self = Ok (m, self0) ->
  m <= __len__ self ->
  (buffer self <> [] ->
   forall items,
     exists self',
       extend environ items self = Ok self'
       /\ read self' = lastn (List.length (read self)) (read self ++ items)
       /\ __len__ self' = __len__ self)
  /\ (buffer self = [] ->
      forall item items,
        extend environ (item :: items) self
        = Raise (IndexError "pop from an empty deque")).
Proof.
  intros Hmax Hm. unfold __len__, read in *. split.
  - intros Hne items.
    destruct (overfull_extend environ m (List.length (buffer self))) with
      (items := items) (self := self) (self0 := self0)
      as (self' & Hrun & HB); trivial.
    + destruct (buffer self); [contradiction | simpl; lia].
    + exists self'. split; [exact Hrun|]. split; [exact HB|].
      rewrite HB. unfold lastn. rewrite length_skipn, length_app.
      f_equal. lia.
  - intros Hempty item items. simpl.
    rewrite (locked_append_spec _ item _ _ _ Hmax), Hempty in *. simpl in *.
    replace (0 >=? m) with true by (symmetry; apply Z.geb_le; lia).
    reflexivity.
Qed.

Lemma overfull_buffer_keeps_its_length_witness :
  exists self',
    extend None [PyInt 4; PyInt 5]
      (set_log_buffer_size 2 {| buffer := [PyInt 1; PyInt 2; PyInt 3]; _max := 3 |})
    = Ok self'
    /\ read self' = [PyInt 3; PyInt 4; PyInt 5]
    /\ __len__ self' = 3.
Proof.
  destruct (overfull_buffer_keeps_its_length None 2
              (set_log_buffer_size 2 {| buffer := [PyInt 1; PyInt 2; PyInt 3]; _max := 3 |})
              _ eq_refl ltac:(unfold __len__; simpl; lia)) as [H _].
  apply (H ltac:(discriminate) [PyInt 4; PyInt 5]).
Defined.

Lemma deque_pop_snoc self l item :
  buffer self = l ++ [item] ->
  deque_pop self = Ok (item, {| buffer := l; _max := _max self |}).
Proof.
  intros H. unfold deque_pop. rewrite H.
  destruct l as [|a l]; [reflexivity|].
  change ((a :: l) ++ [item]) with (a :: (l ++ [item])).
  cbv iota. rewrite last_last.
  change (a :: (l ++ [item])) with ((a :: l) ++ [item]).
  now rewrite removelast_last.
Qed.

Lemma getitem_last self l item :
  buffer self = l ++ [item] -> __getitem__ (-1) self = Ok item.
Proof.
  intros H. unfold __getitem__. rewrite H, length_app. simpl List.length.
  change (-1 <? 0) with true. cbv iota.
  replace (-1 + Z.of_nat (List.length l + 1)) with (Z.of_nat (List.length l)) by lia.
  replace (0 <=? Z.of_nat (List.length l)) with true
    by (symmetry; apply Z.leb_le; lia).
  replace (Z.of_nat (List.length l) <? Z.of_nat (List.length l + 1)) with true
    by (symmetry; apply Z.ltb_lt; lia).
  rewrite Nat2Z.id. simpl andb. cbv iota.
  rewrite nth_error_app2 by lia. now rewrite Nat.sub_diag.
Qed.

(** X5: the item just added is the one at that end: after a successful
    [append], [pop] returns the item and leaves the entries before it, and
    index -1 holds it; after a successful [appendleft], [popleft] returns
    the item and leaves the entries after it, and index 0 holds it. *)
Theorem added_item_is_at_its_end
  (environ : option string) (item : pyval) (self self' : SizedLogBuffer) :
  (append environ item self = Ok self' ->
   exists rest,
     pop self' = Ok (item, rest)
     /\ read self' = read rest ++ [item]
     /\ __getitem__ (-1) self' = Ok item)
  /\ (appendleft environ item self = Ok self' ->
      exists rest,
        popleft self' = Ok (item, rest)
        /\ read self' = item :: read rest
        /\ __getitem__ 0 self' = Ok item).
Proof.
  split; intros H.
  - destruct (locked_append_ends_with environ item self self' H) as [l Hl].
    exists {| buffer := l; _max := _max self' |}.
    split; [now apply deque_pop_snoc|]. split; [exact Hl|].
    now apply getitem_last with l.
  - destruct (locked_appendleft_starts_with environ item self self' H) as [l Hl].
    unfold popleft, read, __getitem__. rewrite Hl. simpl List.length.
    eexists. split; [reflexivity|]. split; [reflexivity|].
    replace (0 <? Z.of_nat (S (List.length l))) with true
      by (symmetry; apply Z.ltb_lt; lia).
    reflexivity.
Qed.

Lemma added_item_is_at_its_end_witness :
  append (Some "2"%string) (PyInt 3) {| buffer := [PyInt 1; PyInt 2]; _max := 0 |}
  = Ok {| buffer := [PyInt 2; PyInt 3]; _max := 2 |}
  /\ exists rest,
       pop {| buffer := [PyInt 2; PyInt 3]; _max := 2 |} = Ok (PyInt 3, rest)
       /\ read {| buffer := [PyInt 2; PyInt 3]; _max := 2 |} = read rest ++ [PyInt 3]
       /\ __getitem__ (-1) {| buffer := [PyInt 2; PyInt 3]; _max := 2 |} = Ok (PyInt 3).
Proof.
  split; [reflexivity|].
  destruct (added_item_is_at_its_end (Some "2"%string) (PyInt 3)
              {| buffer := [PyInt 1; PyInt 2]; _max := 0 |}
              {| buffer := [PyInt 2; PyInt 3]; _max := 2 |}) as [H _].
  apply H. reflexivity.
Defined.

(** X6: [clear] empties the buffer whatever it held (even more than its
    capacity) and keeps the capacity: the buffer reads as empty, has
    length 0 and is falsy, and with capacity [N >= 1] an [extend] that
    follows leaves exactly the last [N] of its items. *)
Theorem cleared_buffer_is_as_new
  (environ : option string) (N : Z) (self self0 : SizedLogBuffer)
  (items : list pyval) :
  0 < N ->
  max environ self = Ok (N, self0) ->
  get_logs (clear_logs self) = []
  /\ __len__ (clear self) = 0
  /\ __bool__ (clear self) = false
  /\ exists self',
       extend environ items (clear self) = Ok self'
       /\ read self' = lastn (Z.to_nat N) items.
Proof.
  intros HN Hmax. repeat split.
  destruct (extend_ring environ N HN items (clear self)
              {| buffer := []; _max := _max self0 |})
    as (self' & _ & Hrun & _ & HB).
  - apply (max_any_buffer _ _ _ _ Hmax).
  - simpl. lia.
  - now exists self'.
Qed.

Lemma cleared_buffer_is_as_new_witness :
  exists self',
    extend None [PyInt 7; PyInt 8; PyInt 9]
      (clear {| buffer := [PyInt 1; PyInt 2; PyInt 3; PyInt 4]; _max := 2 |})
    = Ok self'
    /\ read self' = lastn (Z.to_nat 2) [PyInt 7; PyInt 8; PyInt 9].
Proof.
  apply (cleared_buffer_is_as_new None 2
           {| buffer := [PyInt 1; PyInt 2; PyInt 3; PyInt 4]; _max := 2 |} _
           [PyInt 7; PyInt 8; PyInt 9] ltac:(lia) eq_refl).
Defined.

(** X7: once [max] has read a capacity other than 0, the capacity is
    stored: every later reading returns it whatever the environment
    variable has become, and [enabled] answers accordingly. *)
Theorem stored_capacity_ignores_environment
  (environ : option string) (n : Z) (self self' : SizedLogBuffer) :
  max environ self = Ok (n, self') ->
  n <> 0 ->
  forall later,
    max later self' = Ok (n, self')
    /\ max_size later self' = Ok (n, self')
    /\ enabled later self' = Ok (n >? 0, self').
Proof.
  intros Hmax Hn later.
  destruct (max_positive _ _ _ _ Hmax Hn) as [HM _].
  assert (H : max later self' = Ok (n, self')).
  { rewrite <- HM. apply max_stored. now rewrite HM. }
  unfold max_size, enabled. now rewrite H.
Qed.

Lemma stored_capacity_ignores_environment_witness :
  max (Some "5"%string) __init__ = Ok (5, set_max 5 __init__)
  /\ max (Some "9"%string) (set_max 5 __init__) = Ok (5, set_max 5 __init__)
  /\ max None (set_max 5 __init__) = Ok (5, set_max 5 __init__).
Proof.
  split; [reflexivity|].
  split;
    apply (stored_capacity_ignores_environment (Some "5"%string) 5 __init__
             (set_max 5 __init__) eq_refl ltac:(lia)).
Defined.

Lemma leading_digits_decimal s :
  all_chars (fun c => match decimal_value c with Some _ => true | None => false end) s
  = true ->
  leading_digits s = String.length s.
Proof.
  induction s as [|c s IH]; simpl; [reflexivity|].
  destruct (decimal_value c); [|discriminate]. simpl. intros H. now rewrite IH.
Qed.

Lemma leading_digits_le s : (leading_digits s <= String.length s)%nat.
Proof.
  induction s as [|c s IH]; simpl; [lia|].
  destruct (decimal_value c); simpl; lia.
Qed.

(** The strings of decimal digits are the texts of the digit sequences. *)
Lemma string_of_uint_decimal d :
  all_chars (fun c => match decimal_value c with Some _ => true | None => false end)
    (NilEmpty.string_of_uint d) = true
  /\ String.length (NilEmpty.string_of_uint d) = Decimal.nb_digits d.
Proof.
  induction d as [|d [IH1 IH2]|d [IH1 IH2]|d [IH1 IH2]|d [IH1 IH2]|d [IH1 IH2]
                  |d [IH1 IH2]|d [IH1 IH2]|d [IH1 IH2]|d [IH1 IH2]|d [IH1 IH2]];
    [split; reflexivity|..];
    (split; [exact IH1 | simpl; now rewrite IH2]).
Qed.

Lemma int_from_string_of_uint d :
  forall a : nat,
    int_from (Z.of_nat a) (NilEmpty.string_of_uint d)
    = Some (Z.of_nat (Nat.of_uint_acc d a)).
Proof.
  induction d as [|d IH|d IH|d IH|d IH|d IH|d IH|d IH|d IH|d IH|d IH]; intros a;
    [reflexivity|..];
    cbn [NilEmpty.string_of_uint int_from Nat.of_uint_acc];
    match goal with
    | |- context [decimal_value ?c] =>
        let v := eval vm_compute in (decimal_value c) in
        change (decimal_value c) with v
    end;
    cbv iota; rewrite <- IH; f_equal; rewrite Nat.tail_mul_spec; lia.
Qed.

(** X8: while the stored capacity is 0, [max] takes it from the
    environment variable: a value that [str.isdigit] rejects (empty, signed
    such as "-5", or not a number) leaves the capacity 0; a string of at
    most 4300 decimal digits gives the number it writes, leading zeros
    aside; a value that [str.isdigit] accepts and [int] does not (one with
    a superscript digit, or one longer than 4300 digits) makes [max] raise
    ValueError; the capacity read is never negative; and an unset variable
    reads as 0. *)
Theorem capacity_from_environment (self : SizedLogBuffer) :
  _max self = 0 ->
  (forall s, isdigit s = false -> max (Some s) self = Ok (0, self))
  /\ (forall d : Decimal.uint,
        d <> Decimal.Nil ->
        Z.of_nat (Decimal.nb_digits d) <= int_max_str_digits ->
        max (Some (NilEmpty.string_of_uint d)) self
        = Ok (Z.of_nat (Nat.of_uint d), set_max (Z.of_nat (Nat.of_uint d)) self))
  /\ (forall s,
        isdigit s = true ->
        decimal_string s = false \/ int_max_str_digits < Z.of_nat (String.length s) ->
        exists msg, max (Some s) self = Raise (ValueError msg))
  /\ (forall environ n self', max environ self = Ok (n, self') -> 0 <= n)
  /\ max None self = Ok (0, set_max 0 self).
Proof.
  intros H0. unfold max. rewrite H0. simpl Z.eqb. cbv iota.
  split; [|split; [|split; [|split]]].
  - intros s Hs. now rewrite Hs.
  - intros d Hd Hlen.
    destruct (string_of_uint_decimal d) as [Hall Hsize].
    assert (Hdigit : isdigit (NilEmpty.string_of_uint d) = true).
    { apply decimal_is_digit. unfold decimal_string. rewrite Hall, andb_true_r.
      destruct d; try reflexivity. now destruct Hd. }
    rewrite Hdigit. unfold int.
    rewrite (leading_digits_decimal _ Hall), Hsize.
    replace (int_max_str_digits <? Z.of_nat (Decimal.nb_digits d)) with false
      by (symmetry; apply Z.ltb_ge; exact Hlen).
    change 0 with (Z.of_nat 0). rewrite int_from_string_of_uint. reflexivity.
  - intros s Hd Hs. rewrite Hd. unfold int.
    destruct (int_max_str_digits <? Z.of_nat (leading_digits s)) eqn:Elimit;
      [simpl; now eexists|].
    apply Z.ltb_ge in Elimit.
    assert (Hnot : all_chars
                     (fun c => match decimal_value c with
                               | Some _ => true | None => false end) s = false).
    { destruct (all_chars _ s) eqn:Eall; [|reflexivity].
      destruct Hs as [Hs | Hs].
      - unfold decimal_string in Hs. unfold isdigit in Hd.
        apply andb_prop in Hd as [Hne _]. rewrite Hne, Eall in Hs. discriminate Hs.
      - rewrite (leading_digits_decimal s Eall) in Elimit. lia. }
    rewrite (int_from_not_decimal s Hnot 0). simpl. now eexists.
  - intros environ n self'.
    destruct (isdigit _).
    + unfold int. destruct (int_max_str_digits <? _); simpl; [discriminate|].
      destruct (int_from 0 _) as [k|] eqn:Ek; simpl; [|discriminate].
      intros H. injection H as <- _.
      eapply int_from_nonnegative with (acc := 0); [lia | exact Ek].
    + intros H. injection H as <- _. lia.
  - reflexivity.
Qed.

Lemma capacity_from_environment_witness :
  max (Some "-5"%string) __init__ = Ok (0, __init__)
  /\ max (Some "0250"%string) __init__ = Ok (250, set_max 250 __init__)
  /\ (exists msg,
        max (Some (String (ascii_of_nat 178) "")) __init__ = Raise (ValueError msg))
  /\ exists msg, max (Some (Samples.zeros 4301)) __init__ = Raise (ValueError msg).
Proof.
  destruct (capacity_from_environment __init__ eq_refl) as (Hno & Hdec & Hbad & _).
  split; [apply Hno; reflexivity|].
  split.
  - apply (Hdec (Decimal.D0 (Decimal.D2 (Decimal.D5 (Decimal.D0 Decimal.Nil))))).
    + discriminate.
    + vm_compute. discriminate.
  - split.
    + apply Hbad; [reflexivity | now left].
    + apply Hbad; [vm_compute; reflexivity | right; vm_compute; reflexivity].
Defined.

End LoggerMoreFacts.

(** ** The rest of the adapter *)

Module OpenAIResponsesMoreFacts.
Import Py OpenAIResponses OpenAIResponsesFacts.
#[local] Open Scope list_scope.

(** *** What the data operations raise *)

Ltac only_exceptions :=
  intros e He;
  repeat match type of He with
         | context [match ?x with _ => _ end] => destruct x
         end;
  try discriminate He;
  injection He as <-; eexists; eexists; reflexivity.

Lemma get_raises v k default : raises_exceptions_only (get v k default).
Proof. unfold get, AttributeError. only_exceptions. Qed.

Lemma contains_raises k v : raises_exceptions_only (contains k v).
Proof. unfold contains, TypeError. only_exceptions. Qed.

Lemma getitem_raises v k : raises_exceptions_only (getitem v k).
Proof. unfold getitem, TypeError, KeyError. only_exceptions. Qed.

Lemma getitem0_raises v : raises_exceptions_only (getitem0 v).
Proof. unfold getitem0, TypeError, KeyError, IndexError. only_exceptions. Qed.

Lemma len_raises v : raises_exceptions_only (len v).
Proof. unfold len, TypeError. only_exceptions. Qed.

Lemma split_raises v : raises_exceptions_only (split v).
Proof. unfold split, AttributeError. only_exceptions. Qed.

Lemma iter_raises v : raises_exceptions_only (iter v).
Proof. unfold iter, TypeError. only_exceptions. Qed.

Lemma rbind_raises {A B} (r : result A) (k : A -> result B) :
  raises_exceptions_only r ->
  (forall a, raises_exceptions_only (k a)) ->
  raises_exceptions_only (rbind r k).
Proof.
  intros Hr Hk e. destruct r as [a|e']; simpl.
  - apply Hk.
  - intros H. injection H as <-. now apply Hr.
Qed.

Lemma ok_raises {A} (a : A) : raises_exceptions_only (Ok a).
Proof. intros e H. discriminate H. Qed.

Lemma if_raises {A} (b : bool) (r1 r2 : result A) :
  raises_exceptions_only r1 -> raises_exceptions_only r2 ->
  raises_exceptions_only (if b then r1 else r2).
Proof. now destruct b. Qed.

Create HintDb raises.

#[local] Hint Resolve get_raises contains_raises getitem_raises getitem0_raises
  len_raises split_raises iter_raises ok_raises : raises.

Ltac raises :=
  repeat first
    [ apply ok_raises
    | apply rbind_raises; [auto with raises | intros ?]
    | apply if_raises
    | solve [auto with raises] ].

Lemma node_type_raises node : raises_exceptions_only (node_type node).
Proof. unfold node_type. raises. Qed.

Lemma any_node_of_type_raises a b nodes :
  raises_exceptions_only (any_node_of_type a b nodes).
Proof.
  induction nodes as [|node nodes IH]; simpl; [apply ok_raises|].
  apply rbind_raises; [apply node_type_raises|]. intros t.
  apply if_raises; [apply ok_raises | exact IH].
Qed.

Lemma has_component_raises a b flow_data :
  raises_exceptions_only (has_component a b flow_data).
Proof.
  destruct flow_data as [d|]; [|apply ok_raises]. unfold has_component.
  apply if_raises; [apply ok_raises|].
  apply rbind_raises; [apply getitem_raises|]. intros nodes.
  apply rbind_raises; [apply iter_raises|]. intros xs.
  apply any_node_of_type_raises.
Qed.

Lemma lacks_chat_components_raises flow :
  raises_exceptions_only (lacks_chat_components flow).
Proof.
  unfold lacks_chat_components.
  apply rbind_raises; [apply has_component_raises|]. intros has_input.
  apply if_raises; [apply ok_raises|].
  apply rbind_raises; [apply has_component_raises|]. intros has_output.
  apply ok_raises.
Qed.

Lemma nonempty_raises v : raises_exceptions_only (nonempty v).
Proof. unfold nonempty. raises. Qed.

Lemma extract_response_content_raises result :
  raises_exceptions_only (extract_response_content result).
Proof.
  destruct result as [[| | | | |d]| |]; try apply ok_raises.
  unfold extract_response_content. cbv zeta.
  repeat first
    [ apply ok_raises
    | apply nonempty_raises
    | apply rbind_raises; [first [apply nonempty_raises | auto with raises] | intros ?]
    | apply if_raises
    | solve [auto with raises] ].
Qed.

Lemma usage_raises message_content response_content :
  raises_exceptions_only (usage message_content response_content).
Proof. unfold usage. raises. Qed.

(** *** Requests turned away, and runs that fail *)

(** X9: a request is turned away before anything is done for it: when
    the lookup finds no flow the endpoint raises HTTP 404 with the model
    named in the OpenAI-shaped body, and when a valid flow is asked without
    any message it raises HTTP 400; in both cases the world is unchanged
    (no session id drawn, no telemetry task, no execution). *)
Theorem turned_away_without_a_trace
  (env : collaborators) (request : OpenAIResponsesRequest)
  (current_user : UserRead) (w : world) :
  (get_flow_by_id_or_endpoint_name env (model request) (user_id current_user)
   = Ok None ->
   openai_chat_completions env request current_user w
   = (Raise (HTTPException 404
               (PyDict [("error"%string,
                         PyDict [("message"%string,
                                  PyStr ("Flow '" ++ model request ++ "' not found"));
                                 ("type"%string, PyStr "invalid_request_error");
                                 ("param"%string, PyNone);
                                 ("code"%string, PyNone)])])),
      w))
  /\ (forall flow,
        get_flow_by_id_or_endpoint_name env (model request) (user_id current_user)
        = Ok (Some flow) ->
        lacks_chat_components flow = Ok false ->
        messages request = [] ->
        openai_chat_completions env request current_user w
        = (Raise (HTTPException 400
                    (PyDict [("error"%string,
                              PyDict [("message"%string,
                                       PyStr "At least one message is required");
                                      ("type"%string, PyStr "invalid_request_error");
                                      ("param"%string, PyNone);
                                      ("code"%string, PyNone)])])),
           w)).
Proof.
  split.
  - intros Hflow. unfold openai_chat_completions, try_except, bind, lift.
    now rewrite Hflow.
  - intros flow Hflow Hvalid Hmessages.
    unfold openai_chat_completions, try_except, bind, lift.
    now rewrite Hflow, Hvalid, Hmessages.
Qed.

Lemma turned_away_without_a_trace_witness :
  fst (openai_chat_completions Samples.without_flow
         (Samples.chat false Samples.conversation) Samples.user new_world)
  = Raise (HTTPException 404
             (model_dump (create_openai_error "Flow '3f2a' not found")))
  /\ snd (openai_chat_completions Samples.silent (Samples.chat true []) Samples.user
            new_world)
     = new_world.
Proof.
  destruct (turned_away_without_a_trace Samples.without_flow
              (Samples.chat false Samples.conversation) Samples.user new_world)
    as [H404 _].
  destruct (turned_away_without_a_trace Samples.silent (Samples.chat true [])
              Samples.user new_world) as [_ H400].
  split.
  - now rewrite (H404 eq_refl).
  - now rewrite (H400 Samples.chat_flow eq_refl eq_refl eq_refl).
Defined.

Section Failures.
Variable env : collaborators.
Variable request : OpenAIResponsesRequest.
Variable current_user : UserRead.
Variable flow : FlowRead.
Variables (earlier : list OpenAIMessage) (final : OpenAIMessage).
Variable w : world.
Hypothesis resolved :
  get_flow_by_id_or_endpoint_name env (model request) (user_id current_user)
  = Ok (Some flow).
Hypothesis valid : lacks_chat_components flow = Ok false.
Hypothesis conversation : messages request = earlier ++ [final].




End Failures.





Lemma on_error_outcome env e w :
  fst (on_error env e w)
  = Raise (match e with
           | PyException _ _ =>
               HTTPException 500
                 (model_dump (create_openai_error
                                ("Internal server error: " ++ str env e)))
           | _ => e
           end).
Proof. now destruct e. Qed.

Lemma shaped error_message : openai_shaped (model_dump (create_openai_error error_message)).
Proof. now exists error_message. Qed.

(** X12: whatever the request and whatever the collaborators do, the
    endpoint never raises an ordinary exception: what it raises is an HTTP
    error, which is the lookup's own, or a 404 or 400 with an OpenAI-shaped
    body, or a 500 whose detail is OpenAI-shaped or a plain string; or else
    it is a non-[Exception] (such as a cancellation) that the lookup or the
    flow run raised and that passes through. *)
Theorem endpoint_raises_http_errors_only
  (env : collaborators) (request : OpenAIResponsesRequest)
  (current_user : UserRead) (w : world) (e : exception) :
  fst (openai_chat_completions env request current_user w) = Raise e ->
  (exists status detail,
     e = HTTPException status detail
     /\ (get_flow_by_id_or_endpoint_name env (model request) (user_id current_user)
         = Raise e
         \/ (status = 404%Z /\ openai_shaped detail)
         \/ (status = 400%Z /\ openai_shaped detail)
         \/ (status = 500%Z /\ (openai_shaped detail \/ exists s, detail = PyStr s))))
  \/ (is_Exception e = false
      /\ (get_flow_by_id_or_endpoint_name env (model request) (user_id current_user)
          = Raise e
          \/ exists flow run_request,
               simple_run_flow env flow run_request (user_id current_user) = Raise e)).
Proof.
  assert (Hpy : forall cls msg w0,
             fst (on_error env (PyException cls msg) w0) = Raise e ->
             exists status detail,
               e = HTTPException status detail
               /\ (get_flow_by_id_or_endpoint_name env (model request)
                     (user_id current_user) = Raise e
                   \/ (status = 404%Z /\ openai_shaped detail)
                   \/ (status = 400%Z /\ openai_shaped detail)
                   \/ (status = 500%Z
                       /\ (openai_shaped detail \/ exists s, detail = PyStr s)))).
  { intros cls msg w0 H. rewrite on_error_outcome in H. injection H as <-.
    eexists; eexists. split; [reflexivity|].
    right; right; right. split; [reflexivity|]. left. apply shaped. }
  intros H.
  unfold openai_chat_completions, try_except, bind at 1, lift at 1 in H.
  destruct (get_flow_by_id_or_endpoint_name env (model request) (user_id current_user))
    as [[flow|]|e0] eqn:Elookup.
  - unfold bind at 1, lift at 1 in H.
    destruct (lacks_chat_components flow) as [[|]|e1] eqn:Evalid.
    + injection H as <-. left. eexists; eexists. split; [reflexivity|].
      right; right; left. split; [reflexivity | apply shaped].
    + destruct (messages request) as [|m ms].
      * injection H as <-. left. eexists; eexists. split; [reflexivity|].
        right; right; left. split; [reflexivity | apply shaped].
      * destruct (session_id_or_uuid_returns env request w) as (session & Hs & _).
        unfold bind at 1 in H. rewrite Hs in H.
        unfold bind at 1, add_task, respond in H.
        destruct (stream request); [discriminate H|].
        unfold bind at 1 in H. rewrite await_simple_run in H.
        destruct (simple_run_flow env flow _ (user_id current_user))
          as [result|e2] eqn:Erun.
        -- unfold bind at 1, lift at 1 in H.
           destruct (extract_response_content (Value result))
             as [response_content|e3] eqn:Ex.
           ++ unfold bind at 1, uuid4_str in H. simpl in H.
              destruct (usage (content (last ms m)) response_content)
                as [counts|e4] eqn:Eu.
              ** destruct response_content; simpl in H; discriminate H.
              ** destruct (usage_raises _ _ e4 Eu) as (cls & msg & ->).
                 left. destruct response_content; try discriminate Eu;
                   simpl in H; injection H as <-;
                   (eexists; eexists; split; [reflexivity|];
                    right; right; right; split; [reflexivity|]; left; apply shaped).
           ++ destruct (extract_response_content_raises _ e3 Ex) as (cls & msg & ->).
              left. now apply (Hpy cls msg) in H.
        -- destruct (is_Exception e2) eqn:E2.
           ++ injection H as <-. left. eexists; eexists. split; [reflexivity|].
              right; right; right. split; [reflexivity|]. right. now eexists.
           ++ destruct e2; try discriminate E2. injection H as <-.
              right. split; [reflexivity|]. right. eexists; eexists. exact Erun.
    + destruct (lacks_chat_components_raises flow e1 Evalid) as (cls & msg & ->).
      left. now apply (Hpy cls msg) in H.
  - injection H as <-. left. eexists; eexists. split; [reflexivity|].
    right; left. split; [reflexivity | apply shaped].
  - destruct e0 as [status detail|cls msg|cls msg].
    + injection H as <-. left. eexists; eexists. split; [reflexivity|]. now left.
    + left. now apply (Hpy cls msg) in H.
    + injection H as <-. right. split; [reflexivity|]. now left.
Qed.

Lemma endpoint_raises_http_errors_only_witness :
  fst (openai_chat_completions
         (Samples.mocked Samples.flow_with_null_data (Ok PyNone) [] None)
         (Samples.chat false Samples.conversation) Samples.user new_world)
  = Raise (HTTPException 500
             (model_dump
                (create_openai_error
                   "Internal server error: 'NoneType' object has no attribute 'get'")))
  /\ exists status detail,
       HTTPException 500
         (model_dump
            (create_openai_error
               "Internal server error: 'NoneType' object has no attribute 'get'"))
       = HTTPException status detail.
Proof.
  split; [reflexivity|].
  destruct (endpoint_raises_http_errors_only
              (Samples.mocked Samples.flow_with_null_data (Ok PyNone) [] None)
              (Samples.chat false Samples.conversation) Samples.user new_world _ eq_refl)
    as [(status & detail & H & _) | [H _]].
  - now exists status, detail.
  - discriminate H.
Defined.

(** *** Telemetry and the session id *)

(** X13: a request that passes the lookup, the graph check and the message
    check schedules exactly one telemetry task, for the flow's id and name
    and the caller's id, whether it streams or not and however the run
    ends. *)
Theorem telemetry_is_scheduled_once
  (env : collaborators) (request : OpenAIResponsesRequest)
  (current_user : UserRead) (flow : FlowRead)
  (earlier : list OpenAIMessage) (final : OpenAIMessage) (w : world) :
  get_flow_by_id_or_endpoint_name env (model request) (user_id current_user)
  = Ok (Some flow) ->
  lacks_chat_components flow = Ok false ->
  messages request = earlier ++ [final] ->
  background_tasks (snd (openai_chat_completions env request current_user w))
  = background_tasks w
    ++ [{| payload_flow_id := flow_id flow;
           payload_flow_name := flow_name flow;
           payload_user_id := user_id current_user |}].
Proof.
  intros Hflow Hvalid Hmessages.
  rewrite (endpoint_after_validation env request current_user flow earlier final w
             Hflow Hvalid Hmessages).
  destruct (session_id_or_uuid_returns env request w) as (session & Hs & _).
  unfold try_except, bind at 1. rewrite Hs.
  unfold bind at 1, add_task, respond.
  destruct (stream request).
  - destruct (session_id request) as [s|]; [destruct (truthy (PyStr s))|]; reflexivity.
  - unfold bind at 1. rewrite await_simple_run.
    destruct (session_id request) as [s|]; [destruct (truthy (PyStr s))|];
      (destruct (simple_run_flow env flow _ (user_id current_user)) as [result|e];
       [ unfold bind at 1, lift at 1;
         destruct (extract_response_content (Value result)) as [[| | |text| |]|[| |]];
         reflexivity
       | destruct e; reflexivity ]).
Qed.

Lemma telemetry_is_scheduled_once_witness :
  background_tasks
    (snd (openai_chat_completions
            (Samples.mocked Samples.chat_flow (Raise Samples.forbidden) [] None)
            (Samples.chat false Samples.conversation) Samples.user new_world))
  = [{| payload_flow_id := "3f2a"; payload_flow_name := "Assistant";
        payload_user_id := "u-1" |}].
Proof.
  apply (telemetry_is_scheduled_once
           (Samples.mocked Samples.chat_flow (Raise Samples.forbidden) [] None)
           (Samples.chat false Samples.conversation) Samples.user Samples.chat_flow
           [{| role := "system"; content := "be brief" |}]
           {| role := "user"; content := "a b c" |} new_world
           eq_refl eq_refl eq_refl).
Defined.

(** X14: an empty [session_id] counts as none, and empty tweaks as none: a
    non-streaming request whose session id is the empty string is run in a
    session named by the uuid drawn at that moment, and the run request
    carries [{}] for tweaks that are [None] or empty. *)
Theorem empty_session_id_is_replaced
  (env : collaborators) (request : OpenAIResponsesRequest)
  (current_user : UserRead) (flow : FlowRead)
  (earlier : list OpenAIMessage) (final : OpenAIMessage) (w : world) :
  get_flow_by_id_or_endpoint_name env (model request) (user_id current_user)
  = Ok (Some flow) ->
  lacks_chat_components flow = Ok false ->
  messages request = earlier ++ [final] ->
  stream request = false ->
  session_id request = Some ""%string ->
  tweaks request = None \/ tweaks request = Some [] ->
  executions (snd (openai_chat_completions env request current_user w))
  = executions w
    ++ [SimpleRun flow
          {| input_value := content final; input_type := "chat"; output_type := "chat";
             request_tweaks := [];
             request_session_id := Some (uuid4 env (uuids_drawn w)) |}
          (user_id current_user)].
Proof.
  intros Hflow Hvalid Hmessages Hstream Hsession Htweaks.
  rewrite (non_streaming_world env request current_user flow earlier final
             (uuid4 env (uuids_drawn w)) w Hflow Hvalid Hmessages Hstream).
  - now destruct Htweaks as [-> | ->].
  - rewrite session_id_or_uuid_value, Hsession. reflexivity.
Qed.

Lemma empty_session_id_is_replaced_witness :
  executions
    (snd (openai_chat_completions
            (Samples.mocked Samples.chat_flow (Ok (Samples.nested (PyStr "hi"))) [] None)
            {| model := "3f2a"; messages := Samples.conversation; stream := false;
               session_id := Some ""%string; tweaks := Some [] |}
            Samples.user new_world))
  = [SimpleRun Samples.chat_flow Samples.run_request "u-1"].
Proof.
  apply (empty_session_id_is_replaced
           (Samples.mocked Samples.chat_flow (Ok (Samples.nested (PyStr "hi"))) [] None)
           {| model := "3f2a"; messages := Samples.conversation; stream := false;
              session_id := Some ""%string; tweaks := Some [] |}
           Samples.user Samples.chat_flow
           [{| role := "system"; content := "be brief" |}]
           {| role := "user"; content := "a b c" |} new_world
           eq_refl eq_refl eq_refl eq_refl eq_refl).
  now right.
Defined.

(** *** The unwrapping of the result *)

(** X15: the unwrapping reads the first output and its first entry only:
    two results whose "outputs" lists start with the same first output give
    the same content whatever follows it, and so do two results whose first
    outputs' "outputs" lists start with the same first entry. *)
Theorem only_first_entries_are_read
  (d d' : dict) (first_output : pyval) (rest rest' : list pyval) :
  lookup "outputs" d = Some (PyList (first_output :: rest)) ->
  lookup "outputs" d' = Some (PyList (first_output :: rest')) ->
  extract_response_content (Value (PyDict d))
  = extract_response_content (Value (PyDict d'))
  /\ forall fo fo' first_data more more' d1 d2,
       lookup "outputs" fo = Some (PyList (first_data :: more)) ->
       lookup "outputs" fo' = Some (PyList (first_data :: more')) ->
       lookup "outputs" d1 = Some (PyList (PyDict fo :: rest)) ->
       lookup "outputs" d2 = Some (PyList (PyDict fo' :: rest')) ->
       extract_response_content (Value (PyDict d1))
       = extract_response_content (Value (PyDict d2)).
Proof.
  intros H H'. split.
  - unfold extract_response_content, contains, getitem, has_key.
    now rewrite H, H'.
  - intros fo fo' first_data more more' d1 d2 Hfo Hfo' H1 H2.
    unfold extract_response_content, contains, getitem, has_key.
    rewrite H1, H2. simpl. unfold has_key. now rewrite Hfo, Hfo'.
Qed.

Lemma only_first_entries_are_read_witness :
  extract_response_content
    (Value (PyDict [("outputs"%string,
                     PyList [PyDict [("outputs"%string,
                                      PyList [PyDict [("results"%string,
                                                       PyDict [("message"%string,
                                                                PyDict [("text"%string,
                                                                         PyStr "hi")])])]])];
                             PyInt 5])]))
  = extract_response_content (Value (Samples.nested (PyStr "hi"))).
Proof.
  apply (only_first_entries_are_read
           [("outputs"%string,
             PyList [PyDict [("outputs"%string,
                              PyList [PyDict [("results"%string,
                                               PyDict [("message"%string,
                                                        PyDict [("text"%string,
                                                                 PyStr "hi")])])]])];
                     PyInt 5])]
           [("outputs"%string,
             PyList [PyDict [("outputs"%string,
                              PyList [PyDict [("results"%string,
                                               PyDict [("message"%string,
                                                        PyDict [("text"%string,
                                                                 PyStr "hi")])])]])]])]
           _ [PyInt 5] [] eq_refl eq_refl).
Defined.

(** *** The frames of a stream *)

Section Frames.
Variable env : collaborators.

Lemma envelopes_shift (F : nat * pyval -> frame) len :
  forall a choices,
    map F (combine (seq (S a) len) choices)
    = map (fun kc => F (S (fst kc), snd kc)) (combine (seq a len) choices).
Proof.
  induction len as [|len IH]; intros a choices; [reflexivity|].
  destruct choices as [|c choices]; [reflexivity|].
  simpl. f_equal. apply IH.
Qed.

Lemma envelopes_cons n t model choice choices :
  envelopes env n t model (choice :: choices)
  = Data (StreamChunk (stream_chunk (uuid4 env n) (time_time env t) model choice))
    :: envelopes env (S n) (S t) model choices.
Proof.
  unfold envelopes. simpl List.length. simpl seq. simpl combine. simpl map.
  rewrite !Nat.add_0_r. f_equal.
  rewrite envelopes_shift. apply map_ext. intros [k c]. simpl.
  now rewrite !Nat.add_succ_r.
Qed.


(** The world after [k] envelopes. *)
Lemma content_frames_envelopes model chunks :
  forall w,
    content_frames env model chunks w
    = (envelopes env (uuids_drawn w) (clock_reads w) model
         (map content_choice (filter truthy chunks)),
       {| uuids_drawn := uuids_drawn w + List.length (filter truthy chunks);
          clock_reads := clock_reads w + List.length (filter truthy chunks);
          executions := executions w;
          background_tasks := background_tasks w;
          log := log w |}).
Proof.
  induction chunks as [|chunk rest IH]; intros w.
  - simpl. rewrite !Nat.add_0_r. now destruct w.
  - simpl. destruct (truthy chunk); [|apply IH].
    cbn [envelope draw_uuid read_clock]. rewrite IH. simpl.
    rewrite envelopes_cons. f_equal. f_equal; lia.
Qed.

End Frames.



(** X17: an exception that is no [Exception] (a cancellation) is not
    caught: the generator ends by raising it after the frames of the chunks
    received, with no error frame, no stop envelope and no terminator, and
    nothing is logged. *)
Theorem non_exception_ends_the_stream
  (env : collaborators) (request : OpenAIResponsesRequest) (source : pyobject)
  (w w1 : world) (chunks : list pyval) (e : exception) :
  aiter source w = ((chunks, Some e), w1) ->
  is_Exception e = false ->
  fst (generate_stream env request source w)
  = (envelopes env (uuids_drawn w1) (clock_reads w1) (model request)
       (map content_choice (filter truthy chunks)),
     Some e)
  /\ log (snd (generate_stream env request source w)) = log w1
  /\ ~ In Done (fst (fst (generate_stream env request source w)))
  /\ forall error, ~ In (Data (ErrorResponse error))
                       (fst (fst (generate_stream env request source w))).
Proof.
  intros Hiter He. unfold generate_stream. rewrite Hiter.
  rewrite content_frames_envelopes, He. simpl fst. simpl snd.
  split; [reflexivity|]. split; [reflexivity|].
  unfold envelopes. split; [|intros error];
    (intros Hin; apply in_map_iff in Hin as ([k c] & Hf & _); discriminate Hf).
Qed.

Lemma non_exception_ends_the_stream_witness :
  fst (generate_stream
         (Samples.mocked Samples.chat_flow (Ok PyNone) [PyStr "Hel"]
            (Some Samples.cancelled))
         (Samples.chat true Samples.conversation)
         (Samples.awaited_run
            (Samples.mocked Samples.chat_flow (Ok PyNone) [PyStr "Hel"]
               (Some Samples.cancelled)))
         new_world)
  = (envelopes
       (Samples.mocked Samples.chat_flow (Ok PyNone) [PyStr "Hel"]
          (Some Samples.cancelled))
       0 0 "3f2a" (map content_choice (filter truthy [PyStr "Hel"])),
     Some Samples.cancelled).
Proof.
  apply (non_exception_ends_the_stream
           (Samples.mocked Samples.chat_flow (Ok PyNone) [PyStr "Hel"]
              (Some Samples.cancelled))
           (Samples.chat true Samples.conversation)
           (Samples.awaited_run
              (Samples.mocked Samples.chat_flow (Ok PyNone) [PyStr "Hel"]
                 (Some Samples.cancelled)))
           new_world _ [PyStr "Hel"] Samples.cancelled eq_refl eq_refl).
Defined.

(** *** The graph check on well-formed graphs *)

Lemma node_type_well_formed a b node :
  well_formed_node node = true ->
  exists t, node_type node = Ok t /\ in_literals t a b = node_has_type a b node.
Proof.
  destruct node as [| | | | |nd]; simpl; try discriminate.
  unfold node_type, get, dict_get. simpl.
  destruct (lookup "data" nd) as [[| | | | |dd]|]; try discriminate; intros _.
  - simpl. destruct (lookup "type" dd) as [t|]; eexists; split; reflexivity.
  - simpl. eexists; split; reflexivity.
Qed.

Lemma any_node_well_formed a b nodes :
  forallb well_formed_node nodes = true ->
  any_node_of_type a b nodes = Ok (existsb (node_has_type a b) nodes).
Proof.
  induction nodes as [|node nodes IH]; simpl; [reflexivity|].
  intros H. apply andb_prop in H as [Hn Hns].
  destruct (node_type_well_formed a b node Hn) as (t & -> & <-). simpl.
  destruct (in_literals t a b); [reflexivity | now apply IH].
Qed.

Lemma any_node_found a b before node after :
  forallb well_formed_node before = true ->
  well_formed_node node = true ->
  node_has_type a b node = true ->
  any_node_of_type a b (before ++ node :: after) = Ok true.
Proof.
  induction before as [|x before IH]; simpl; intros Hb Hn Ht.
  - destruct (node_type_well_formed a b node Hn) as (t & -> & Hlit). simpl.
    now rewrite Hlit, Ht.
  - apply andb_prop in Hb as [Hx Hb].
    destruct (node_type_well_formed a b x Hx) as (t & -> & _). simpl.
    destruct (in_literals t a b); [reflexivity | now apply IH].
Qed.

Lemma has_component_nodes a b d nodes :
  lookup "nodes" d = Some (PyList nodes) ->
  has_component a b (Some d) = any_node_of_type a b nodes.
Proof.
  intros H. unfold has_component, has_key, getitem. rewrite H.
  destruct d; [discriminate H | reflexivity].
Qed.

(** X18: on a graph whose "nodes" is a list of well-formed nodes (each a
    dictionary whose "data", if any, is a dictionary), [has_chat_input]
    says whether some node has the type "ChatInput" or "Chat Input" and
    [has_chat_output] whether some node has the type "ChatOutput" or "Chat
    Output"; neither raises, and the other keys of the graph and of the
    nodes play no part. *)
Theorem chat_checks_on_well_formed_graphs (d : dict) (nodes : list pyval) :
  lookup "nodes" d = Some (PyList nodes) ->
  forallb well_formed_node nodes = true ->
  has_chat_input (Some d) = Ok (existsb (node_has_type "ChatInput" "Chat Input") nodes)
  /\ has_chat_output (Some d)
     = Ok (existsb (node_has_type "ChatOutput" "Chat Output") nodes).
Proof.
  intros Hnodes Hwf. unfold has_chat_input, has_chat_output.
  rewrite !(has_component_nodes _ _ d nodes Hnodes).
  split; now apply any_node_well_formed.
Qed.

Lemma chat_checks_on_well_formed_graphs_witness :
  has_chat_input (flow_data Samples.flow_without_output) = Ok true
  /\ has_chat_output (flow_data Samples.flow_without_output) = Ok false.
Proof.
  apply (chat_checks_on_well_formed_graphs
           [("nodes"%string,
             PyList [Samples.node_of_type (PyStr "ChatInput");
                     Samples.node_of_type (PyStr "OpenAIModel")])]
           [Samples.node_of_type (PyStr "ChatInput");
            Samples.node_of_type (PyStr "OpenAIModel")]
           eq_refl eq_refl).
Defined.

(** X19: the checks stop at the first chat node: when a node of the wanted
    type comes after well-formed nodes only, the check returns [True]
    whatever follows it, malformed nodes included. *)
Theorem chat_checks_stop_at_the_first_match
  (d : dict) (before after : list pyval) (node : pyval) :
  lookup "nodes" d = Some (PyList (before ++ node :: after)) ->
  forallb well_formed_node before = true ->
  well_formed_node node = true ->
  (node_has_type "ChatInput" "Chat Input" node = true ->
   has_chat_input (Some d) = Ok true)
  /\ (node_has_type "ChatOutput" "Chat Output" node = true ->
      has_chat_output (Some d) = Ok true).
Proof.
  intros Hnodes Hb Hn. unfold has_chat_input, has_chat_output.
  rewrite !(has_component_nodes _ _ d _ Hnodes).
  split; intros Ht; now apply any_node_found.
Qed.

Lemma chat_checks_stop_at_the_first_match_witness :
  has_chat_input
    (Some [("nodes"%string,
            PyList ([Samples.node_of_type (PyStr "OpenAIModel")]
                    ++ Samples.node_of_type (PyStr "Chat Input")
                       :: [PyDict [("data"%string, PyNone)]; PyInt 3]))])
  = Ok true.
Proof.
  apply (chat_checks_stop_at_the_first_match
           [("nodes"%string,
             PyList ([Samples.node_of_type (PyStr "OpenAIModel")]
                     ++ Samples.node_of_type (PyStr "Chat Input")
                        :: [PyDict [("data"%string, PyNone)]; PyInt 3]))]
           [Samples.node_of_type (PyStr "OpenAIModel")]
           [PyDict [("data"%string, PyNone)]; PyInt 3]
           (Samples.node_of_type (PyStr "Chat Input"))
           eq_refl eq_refl eq_refl).
  reflexivity.
Defined.

(** *** The word counts *)

Lemma flush_app word words : flush word words = flush word [] ++ words.
Proof. now destruct word. Qed.

Lemma split_from_app s1 : forall word c s2,
  isspace c = true ->
  split_from word (s1 ++ String c s2) = split_from word s1 ++ split_from "" s2.
Proof.
  induction s1 as [|c1 s1 IH]; intros word c s2 Hc.
  - simpl. rewrite Hc. apply flush_app.
  - simpl. destruct (isspace c1).
    + rewrite (IH "" c s2 Hc), (flush_app word (split_from "" s1)),
        (flush_app word (_ ++ _)). now rewrite app_assoc.
    + now apply IH.
Qed.

Lemma split_from_space s :
  Logger.all_chars isspace s = true -> split_from "" s = [].
Proof.
  induction s as [|c s IH]; simpl; [reflexivity|].
  intros H. apply andb_prop in H as [Hc Hs]. rewrite Hc. simpl. now apply IH.
Qed.

Lemma split_from_padded pad : Logger.all_chars isspace pad = true ->
  forall s word,
    split_from word (s ++ pad) = split_from word s.
Proof.
  intros Hpad. induction s as [|c s IH]; intros word.
  - simpl. destruct pad as [|c pad]; [reflexivity|]. simpl in *.
    apply andb_prop in Hpad as [Hc Hp]. rewrite Hc.
    now rewrite (split_from_space pad Hp).
  - simpl. destruct (isspace c); now rewrite IH.
Qed.

Lemma split_from_leading pad : Logger.all_chars isspace pad = true ->
  forall s, split_from "" (pad ++ s) = split_from "" s.
Proof.
  induction pad as [|c pad IH]; simpl; intros H s; [reflexivity|].
  apply andb_prop in H as [Hc Hp]. rewrite Hc. simpl. now apply IH.
Qed.

(** X20: the usage counts see words only: whitespace before or after the
    message or the response text changes no count, a text of whitespace
    alone counts 0, and the count of two texts joined by a whitespace
    character is the sum of their counts. *)
Theorem usage_counts_words_only (pad : string) :
  Logger.all_chars isspace pad = true ->
  (forall message response,
     usage (pad ++ message ++ pad) (PyStr (pad ++ response ++ pad))
     = usage message (PyStr response))
  /\ (forall response,
        usage pad (PyStr response)
        = Ok [("prompt_tokens"%string, PyInt 0);
              ("completion_tokens"%string,
               PyInt (Z.of_nat (List.length (str_split response))));
              ("total_tokens"%string,
               PyInt (0 + Z.of_nat (List.length (str_split response))))])
  /\ (forall s1 s2 c,
        isspace c = true ->
        List.length (str_split (s1 ++ String c s2))
        = (List.length (str_split s1) + List.length (str_split s2))%nat).
Proof.
  intros Hpad. split; [|split].
  - intros message response. unfold usage, split, str_split. simpl rbind.
    rewrite !(split_from_leading pad Hpad), !(split_from_padded pad Hpad).
    reflexivity.
  - intros response. unfold usage, split, str_split. simpl rbind.
    now rewrite (split_from_space pad Hpad).
  - intros s1 s2 c Hc. unfold str_split.
    now rewrite (split_from_app s1 "" c s2 Hc), length_app.
Qed.

Lemma usage_counts_words_only_witness :
  usage ("  " ++ "a b c" ++ "  ") (PyStr ("  " ++ "x y" ++ "  "))
  = usage "a b c" (PyStr "x y").
Proof.
  apply (usage_counts_words_only "  " eq_refl).
Defined.

(** *** The streaming endpoint as written *)

(** X21: as the endpoint is written, the body of every streaming response
    is the same single frame, whatever the flow would stream: the loop is
    given the run call itself, a coroutine, so it raises TypeError before
    its first round and the error frame of that TypeError is all the
    client receives; consuming the body starts no flow execution, draws no
    uuid and logs the error once. *)
Theorem streaming_body_is_one_error_frame
  (env : collaborators) (request : OpenAIResponsesRequest)
  (current_user : UserRead) (flow : FlowRead)
  (earlier : list OpenAIMessage) (final : OpenAIMessage) (w : world) :
  get_flow_by_id_or_endpoint_name env (model request) (user_id current_user)
  = Ok (Some flow) ->
  lacks_chat_components flow = Ok false ->
  messages request = earlier ++ [final] ->
  stream request = true ->
  exists body w',
    openai_chat_completions env request current_user w
    = (Ok (StreamingResponse body "text/plain" streaming_headers), w')
    /\ body w'
       = ([Data (ErrorResponse
                   (create_openai_error
                      "'async for' requires an object with __aiter__ method, got coroutine"))],
          None,
          record_log
            "Error in streaming: 'async for' requires an object with __aiter__ method, got coroutine"
            w')
    /\ executions w' = executions w.
Proof.
  intros Hflow Hvalid Hmessages Hstream.
  destruct (streaming_response env request current_user flow earlier final _ w
              Hflow Hvalid Hmessages Hstream (session_id_or_uuid_value env request w))
    as (w' & Hresponse & Hexecutions).
  eexists; exists w'. split; [exact Hresponse|].
  split; [reflexivity | exact Hexecutions].
Qed.

Lemma streaming_body_is_one_error_frame_witness :
  exists body w',
    openai_chat_completions Samples.hel_lo (Samples.chat true Samples.conversation)
      Samples.user new_world
    = (Ok (StreamingResponse body "text/plain" streaming_headers), w')
    /\ fst (body w')
       = ([Data (ErrorResponse
                   (create_openai_error
                      "'async for' requires an object with __aiter__ method, got coroutine"))],
          None).
Proof.
  destruct (streaming_body_is_one_error_frame Samples.hel_lo
              (Samples.chat true Samples.conversation) Samples.user Samples.chat_flow
              [{| role := "system"; content := "be brief" |}]
              {| role := "user"; content := "a b c" |} new_world
              eq_refl eq_refl eq_refl eq_refl)
    as (body & w' & Hresponse & Hbody & _).
  exists body, w'. split; [exact Hresponse|]. now rewrite Hbody.
Defined.

(** *** Graphs without a chat vertex *)

Lemma node_type_match a b node t :
  node_type node = Ok t -> in_literals t a b = true -> node_has_type a b node = true.
Proof.
  destruct node as [| | | | |nd]; try discriminate.
  unfold node_type, get, dict_get. simpl.
  destruct (lookup "data" nd) as [[| | | | |dd]|]; simpl; try discriminate.
  - destruct (lookup "type" dd) as [t'|]; intros H; injection H as <-; [trivial|].
    discriminate.
  - intros H. injection H as <-. discriminate.
Qed.

(** The scan answers [True] only on a node of the wanted type. *)
Lemma any_node_true_sound a b nodes :
  any_node_of_type a b nodes = Ok true -> existsb (node_has_type a b) nodes = true.
Proof.
  induction nodes as [|node nodes IH]; simpl; [discriminate|].
  destruct (node_type node) as [t|e] eqn:Et; simpl; [|discriminate].
  destruct (in_literals t a b) eqn:El.
  - intros _. now rewrite (node_type_match a b node t Et El).
  - intros H. rewrite (IH H). apply orb_true_r.
Qed.

Lemma has_component_graph a b flow_data nodes :
  graph_nodes flow_data = Some nodes ->
  has_component a b flow_data = any_node_of_type a b nodes.
Proof.
  destruct flow_data as [d|]; unfold graph_nodes.
  - destruct (lookup "nodes" d) as [[| | | |xs|]|] eqn:E; try discriminate;
      intros H; injection H as <-.
    + now apply has_component_nodes.
    + unfold has_component, has_key. rewrite E.
      now rewrite orb_true_r.
  - intros H. now injection H as <-.
Qed.

Lemma check_without_vertex a b flow_data nodes :
  graph_nodes flow_data = Some nodes ->
  existsb (node_has_type a b) nodes = false ->
  has_component a b flow_data = Ok false
  \/ exists cls msg, has_component a b flow_data = Raise (PyException cls msg).
Proof.
  intros Hnodes Hnone.
  destruct (has_component a b flow_data) as [[|]|e] eqn:E.
  - rewrite (has_component_graph a b flow_data nodes Hnodes) in E.
    apply any_node_true_sound in E. rewrite E in Hnone. discriminate Hnone.
  - now left.
  - right. destruct (has_component_raises a b flow_data e E) as (cls & msg & ->).
    now eexists; eexists.
Qed.

Lemma lacks_without_vertex flow nodes :
  graph_nodes (flow_data flow) = Some nodes ->
  has_chat_input_vertex nodes = false \/ has_chat_output_vertex nodes = false ->
  lacks_chat_components flow = Ok true
  \/ exists cls msg, lacks_chat_components flow = Raise (PyException cls msg).
Proof.
  intros Hnodes Hmissing. unfold lacks_chat_components, has_chat_input, has_chat_output.
  destruct Hmissing as [Hin | Hout].
  - destruct (check_without_vertex _ _ _ _ Hnodes Hin) as [-> | (cls & msg & ->)];
      [now left | right; now eexists; eexists].
  - destruct (has_component "ChatInput" "Chat Input" (flow_data flow))
      as [[|]|e] eqn:E; simpl.
    + destruct (check_without_vertex _ _ _ _ Hnodes Hout) as [-> | (cls & msg & ->)];
        [now left | right; now eexists; eexists].
    + now left.
    + right. destruct (has_component_raises _ _ _ e E) as (cls & msg & ->).
      now eexists; eexists.
Qed.

Lemma lacks_on_well_formed flow nodes :
  graph_nodes (flow_data flow) = Some nodes ->
  forallb well_formed_node nodes = true ->
  has_chat_input_vertex nodes = false \/ has_chat_output_vertex nodes = false ->
  lacks_chat_components flow = Ok true.
Proof.
  intros Hnodes Hwf Hmissing.
  unfold lacks_chat_components, has_chat_input, has_chat_output.
  rewrite !(has_component_graph _ _ _ nodes Hnodes).
  rewrite !(any_node_well_formed _ _ nodes Hwf). simpl.
  unfold has_chat_input_vertex, has_chat_output_vertex in Hmissing.
  destruct Hmissing as [-> | ->]; [reflexivity|].
  now destruct (existsb (node_has_type "ChatInput" "Chat Input") nodes).
Qed.

(** C3 as stated fails on a graph with a malformed node: the flow below has
    a chat input, no chat output and a node whose "data" is null; the check
    for the chat output raises on that node, and the endpoint answers with
    HTTP 500, not 400. *)
Lemma graph_without_chat_output_counterexample :
  graph_nodes (flow_data Samples.flow_with_input_and_null_data)
  = Some [Samples.node_of_type (PyStr "ChatInput"); PyDict [("data"%string, PyNone)]]
  /\ has_chat_output_vertex
       [Samples.node_of_type (PyStr "ChatInput"); PyDict [("data"%string, PyNone)]]
     = false
  /\ has_chat_output (flow_data Samples.flow_with_input_and_null_data)
     = Raise (PyException "AttributeError" "'NoneType' object has no attribute 'get'")
  /\ fst (openai_chat_completions
            (Samples.mocked Samples.flow_with_input_and_null_data
               (Ok (Samples.nested (PyStr "hi"))) [] None)
            (Samples.chat false Samples.conversation) Samples.user new_world)
     = Raise (HTTPException 500
                (model_dump
                   (create_openai_error
                      "Internal server error: 'NoneType' object has no attribute 'get'"))).
Proof. repeat split. Qed.

(** C3, as amended: when the graph of the resolved flow lacks a
    chat-input-capable or a chat-output-capable vertex (by the type tags of
    its nodes), the request is rejected before any flow execution, with an
    OpenAI-shaped error body: with HTTP 400 and the world unchanged when
    every node is well-formed (a dictionary whose "data", if any, is a
    dictionary; a graph without data or without "nodes" has no node), and
    in any case with HTTP 400 or, when the check raises on a malformed
    node, HTTP 500, and with no flow execution. *)
Theorem graph_without_chat_vertex_is_rejected
  (env : collaborators) (request : OpenAIResponsesRequest)
  (current_user : UserRead) (flow : FlowRead) (nodes : list pyval) (w : world) :
  get_flow_by_id_or_endpoint_name env (model request) (user_id current_user)
  = Ok (Some flow) ->
  graph_nodes (flow_data flow) = Some nodes ->
  has_chat_input_vertex nodes = false \/ has_chat_output_vertex nodes = false ->
  (forallb well_formed_node nodes = true ->
   openai_chat_completions env request current_user w
   = (Raise (HTTPException 400
               (PyDict [("error"%string,
                         PyDict [("message"%string,
                                  PyStr "Flow must have both ChatInput and ChatOutput components for OpenAI compatibility");
                                 ("type"%string, PyStr "invalid_request_error");
                                 ("param"%string, PyNone);
                                 ("code"%string, PyNone)])])),
      w))
  /\ executions (snd (openai_chat_completions env request current_user w))
     = executions w
  /\ exists status detail,
       fst (openai_chat_completions env request current_user w)
       = Raise (HTTPException status detail)
       /\ (status = 400%Z \/ status = 500%Z)
       /\ openai_shaped detail.
Proof.
  intros Hflow Hnodes Hmissing. split.
  - intros Hwf.
    apply (rejected_before_execution env request current_user flow w Hflow
             (lacks_on_well_formed flow nodes Hnodes Hwf Hmissing)).
  - destruct (lacks_without_vertex flow nodes Hnodes Hmissing)
      as [Hlacks | (cls & msg & Hlacks)].
    + rewrite (rejected_before_execution env request current_user flow w Hflow Hlacks).
      split; [reflexivity|].
      eexists; eexists. split; [reflexivity|]. split; [now left | apply shaped].
    + unfold openai_chat_completions, try_except, bind, lift.
      rewrite Hflow, Hlacks. simpl.
      split; [reflexivity|].
      eexists; eexists. split; [reflexivity|]. split; [now right | apply shaped].
Qed.

Lemma graph_without_chat_vertex_is_rejected_witness :
  graph_nodes (flow_data Samples.flow_without_output)
  = Some [Samples.node_of_type (PyStr "ChatInput");
          Samples.node_of_type (PyStr "OpenAIModel")]
  /\ openai_chat_completions
       (Samples.mocked Samples.flow_without_output
          (Ok (Samples.nested (PyStr "hi"))) [] None)
       (Samples.chat false Samples.conversation) Samples.user new_world
     = (Raise (bad_request
                 "Flow must have both ChatInput and ChatOutput components for OpenAI compatibility"),
        new_world).
Proof.
  split; [reflexivity|].
  destruct (graph_without_chat_vertex_is_rejected
              (Samples.mocked Samples.flow_without_output
                 (Ok (Samples.nested (PyStr "hi"))) [] None)
              (Samples.chat false Samples.conversation) Samples.user
              Samples.flow_without_output
              [Samples.node_of_type (PyStr "ChatInput");
               Samples.node_of_type (PyStr "OpenAIModel")]
              new_world eq_refl eq_refl) as [H _].
  - right. reflexivity.
  - apply H. reflexivity.
Defined.

(** *** What reaches the flow *)



(** C8, on the code as written: the same conversation sent without
    streaming reaches the flow executor once, with the content of its last
    message and a drawn session id; sent with [stream=true] a session id
    is drawn as well, but no executor is reached, neither when the endpoint
    returns nor when the response body has been consumed, because the run
    call that carries the message and the session id is never awaited. *)
Example streaming_request_forwards_nothing :
  executions
    (snd (openai_chat_completions Samples.hel_lo (Samples.chat false Samples.conversation)
            Samples.user new_world))
  = [SimpleRun Samples.chat_flow Samples.run_request "u-1"]
  /\ exists body w',
       openai_chat_completions Samples.hel_lo (Samples.chat true Samples.conversation)
         Samples.user new_world
       = (Ok (StreamingResponse body "text/plain" streaming_headers), w')
       /\ uuids_drawn w' = 1%nat
       /\ executions w' = []
       /\ executions (snd (body w')) = []
       /\ fst (body w')
          = ([Data (ErrorResponse
                      (create_openai_error
                         "'async for' requires an object with __aiter__ method, got coroutine"))],
             None).
Proof.
  split; [reflexivity|].
  eexists; eexists. split; [reflexivity|]. repeat split.
Qed.

End OpenAIResponsesMoreFacts.
